(** * The component manager and the note action sheet of the mobile app

    A shallow embedding of [src/lib/component_manager.ts] (class
    [ComponentManager]) and of the [commonSection] view-model of the note
    bottom sheet, followed by the properties proved about them.

    Asynchronous methods are state-passing functions over the outside
    world (device storage, network, crypto service); a rejected promise
    or a [throw] is the [Threw] result. *)

From Stdlib Require Import ZArith Lia Ascii DecimalString.
From stdpp Require Import base strings list gmap.

Set Warnings "-register-all".

(** ** JavaScript values used by the manager *)

Module JS.

(** What [JSON.parse] can return. Numbers are restricted to integers. *)
Inductive json : Type :=
| JNull
| JBool (b : bool)
| JNumber (n : Z)
| JString (s : string)
| JArray (items : list json)
| JObject (fields : list (string * json)).

(** A JavaScript value: [None] is [undefined]. *)
Definition value : Type := option json.

(** [!!v] *)
Definition truthy (v : value) : bool :=
  match v with
  | None | Some JNull => false
  | Some (JBool b) => b
  | Some (JNumber n) => negb (n =? 0)%Z
  | Some (JString s) => negb (String.eqb s "")
  | Some (JArray _) | Some (JObject _) => true
  end.

(** [a || b] *)
Definition or (a b : value) : value := if truthy a then a else b.

Fixpoint assoc {A} (k : string) (l : list (string * A)) : option A :=
  match l with
  | [] => None
  | (k', a) :: l' => if String.eqb k' k then Some a else assoc k l'
  end.

(** [v?.k] for the keys read by the manager ([version], [sn], [main]):
    only objects carry them. *)
Definition get (v : value) (k : string) : value :=
  match v with
  | Some (JObject fields) => assoc k fields
  | _ => None
  end.

(** [String(n)] for an integer [n] (decimal digits, leading [-]). For
    [|n| >= 10^21] JavaScript switches to exponent notation, which keeps
    the leading digit. *)
Definition String_number (n : Z) : string :=
  NilZero.string_of_int (Z.to_int n).

Fixpoint join (sep : string) (l : list string) : string :=
  match l with
  | [] => ""
  | [s] => s
  | s :: l' => s +:+ sep +:+ join sep l'
  end.

(** String conversion, as performed by a template literal. *)
Fixpoint to_String (j : json) : string :=
  match j with
  | JNull => "null"
  | JBool true => "true"
  | JBool false => "false"
  | JNumber n => String_number n
  | JString s => s
  | JArray items =>
      join "," (List.map (fun x => match x with
                                   | JNull => ""
                                   | _ => to_String x
                                   end) items)
  | JObject _ => "[object Object]"
  end.

Definition template (v : value) : string :=
  match v with
  | None => "undefined"
  | Some j => to_String j
  end.

(** [s.startsWith(p)] *)
Definition startsWith (s p : string) : bool := String.prefix p s.

(** Whether the character [c] occurs in [s]. *)
Fixpoint has_char (c : ascii) (s : string) : bool :=
  match s with
  | EmptyString => false
  | String a s' => Ascii.eqb a c || has_char c s'
  end.

(** [s.includes(part)] *)
Fixpoint includes (s part : string) : bool :=
  String.prefix part s
  || match s with
     | EmptyString => false
     | String _ s' => includes s' part
     end.

(** Truthiness and [||] on values statically known to be strings or
    [undefined]. *)
Definition truthy_string (o : option string) : bool :=
  match o with
  | Some s => negb (String.eqb s "")
  | None => false
  end.

Definition or_string (a b : option string) : option string :=
  if truthy_string a then a else b.

Fixpoint drop_string (n : nat) (s : string) : string :=
  match n, s with
  | O, _ => s
  | S n', String _ s' => drop_string n' s'
  | S _, EmptyString => EmptyString
  end.

(** The last element of [s.split(sep)], for a non-empty separator: the
    part of [s] after the last occurrence of [sep] found by the
    left-to-right scan ([skip] characters of a matched separator remain
    to be passed over, [cur] is the current piece). *)
Fixpoint split_last_from (sep : string) (skip : nat) (cur s : string)
  : string :=
  match s with
  | EmptyString => cur
  | String c s' =>
      match skip with
      | S k => split_last_from sep k cur s'
      | O =>
          if String.prefix sep s
          then split_last_from sep (String.length sep - 1) "" s'
          else split_last_from sep O (cur +:+ String c "") s'
      end
  end.

Definition split_last (sep s : string) : string :=
  split_last_from sep O "" s.

(** [s.split(c)] for a one-character separator. *)
Fixpoint split_on (c : ascii) (s : string) : list string :=
  match s with
  | EmptyString => [EmptyString]
  | String a s' =>
      if Ascii.eqb a c
      then EmptyString :: split_on c s'
      else match split_on c s' with
           | piece :: rest => String a piece :: rest
           | [] => [String a EmptyString]
           end
  end.

End JS.

(** ** Results of asynchronous calls *)

Definition exn : Type := string.

Inductive Res (A : Type) : Type :=
| Ok (a : A)
| Threw (e : exn).
Arguments Ok {A} a.
Arguments Threw {A} e.

(** An [async] computation over the outside world [W]. *)
Definition Async (W A : Type) : Type := W -> Res A * W.

Definition ret {W A} (a : A) : Async W A := fun w => (Ok a, w).

Definition throw {W A} (e : exn) : Async W A := fun w => (Threw e, w).

Definition bind {W A B} (m : Async W A) (k : A -> Async W B) : Async W B :=
  fun w =>
    match m w with
    | (Ok a, w') => k a w'
    | (Threw e, w') => (Threw e, w')
    end.

(** [try { m } catch (e) { h e }] *)
Definition try_catch {W A} (m : Async W A) (h : exn -> Async W A)
  : Async W A :=
  fun w =>
    match m w with
    | (Ok a, w') => (Ok a, w')
    | (Threw e, w') => h e w'
    end.

Declare Scope async_scope.
Delimit Scope async_scope with async.
Notation "x <- m ;; k" := (bind m (fun x => k))
  (at level 100, m at next level, right associativity) : async_scope.
Notation "m ;;; k" := (bind m (fun _ => k))
  (at level 100, right associativity) : async_scope.

(** ** The collaborators: filesystem gateway, archive extractor, crypto *)

Inductive Encoding : Type := Utf8 | Base64Text.

(** An entry returned by [RNFS.readDir]. *)
Record ReadDirItem : Type := {
  item_name : string;
  item_path : string;
  item_isDirectory : bool
}.

Class Collaborators (W : Type) : Type := {
  RNFS_exists : string -> Async W bool;
  RNFS_unlink : string -> Async W unit;
  (** [RNFS.downloadFile({fromUrl, toFile}).promise], giving [statusCode] *)
  RNFS_downloadFile : string -> string -> Async W Z;
  RNFS_readFile : string -> Encoding -> Async W string;
  RNFS_readDir : string -> Async W (list ReadDirItem);
  RNFS_moveFile : string -> string -> Async W unit;
  unzip : string -> string -> Async W unit;
  (** [protocolService.crypto.sha256] *)
  crypto_sha256 : string -> Async W string
}.

(** ** Data model *)

Inductive ComponentLoadingError : Type :=
| FailedDownload
| ChecksumMismatch
| LocalServerFailure
| DoesntExist
| Unknown.

(** A Feature Descriptor of the registry [Features]. *)
Record FeatureDescription : Type := {
  feature_identifier : string;
  feature_download_url : option string;
  feature_version : option string;
  feature_index_path : option string
}.

(** An entry of [checksums.json]. *)
Record FeatureChecksum : Type := {
  base64 : option string
}.

Record PackageInfo : Type := {
  download_url : option string;
  version : option string
}.

Definition ThemeVariables : Type := list (string * string).

Record SNComponent : Type := {
  identifier : string;
  package_info : option PackageInfo;
  isTheme : bool;
  (** [safeContent.isSystemTheme] *)
  isSystemTheme : bool;
  (** [mobileContent.variables] of a [MobileTheme] *)
  variables : ThemeVariables
}.

(** ** Plain objects used as maps

    An object made by [{}]: its own properties and its prototype. The
    prototype is [Object.prototype] until an assignment to the key
    [__proto__] reaches the setter that [Object.prototype] has for it;
    the values assigned come from [JSON.parse]. *)

Module PlainObject.

Inductive Prototype : Type :=
| ObjectPrototype
| NullPrototype
| ParsedObject (fields : list (string * JS.json))
| ParsedArray (items : list JS.json).

Record t : Type := {
  own : gmap string JS.json;
  prototype : Prototype
}.

(** [{}] *)
Definition empty : t := {| own := ∅; prototype := ObjectPrototype |}.

(** The element of an array whose index, counted from [i], has the
    decimal text [key]. *)
Fixpoint element_named (key : string) (i : Z) (items : list JS.json)
  : option JS.json :=
  match items with
  | [] => None
  | item :: rest =>
      if String.eqb (JS.String_number i) key then Some item
      else element_named key (i + 1) rest
  end.

(** The own property [key] of a prototype made by [JSON.parse]. *)
Definition own_of_prototype (p : Prototype) (key : string)
  : option JS.json :=
  match p with
  | ParsedObject fields => JS.assoc key fields
  | ParsedArray items =>
      if String.eqb key "length"
      then Some (JS.JNumber (Z.of_nat (length items)))
      else element_named key 0 items
  | ObjectPrototype | NullPrototype => None
  end.

(** The prototype as the value that the getter of [__proto__] returns.
    Its readers only test it and convert it to a string:
    [Object.prototype] is an object, converted to [[object Object]]. *)
Definition prototype_value (p : Prototype) : JS.value :=
  match p with
  | ObjectPrototype => Some (JS.JObject [])
  | NullPrototype => Some JS.JNull
  | ParsedObject fields => Some (JS.JObject fields)
  | ParsedArray items => Some (JS.JArray items)
  end.

Section Members.

(** The members of [Object.prototype] and of [Array.prototype], by name
    ([constructor], [toString], [push], ...), the accessor [__proto__]
    apart. *)
Variable Object_prototype : string -> option JS.json.
Variable Array_prototype : string -> option JS.json.

(** What the prototype chain gives for [key]. *)
Definition inherited (obj : t) (key : string) : JS.value :=
  match own_of_prototype (prototype obj) key with
  | Some v => Some v
  | None =>
      match prototype obj with
      | NullPrototype => None
      | ObjectPrototype | ParsedObject _ =>
          if String.eqb key "__proto__"
          then prototype_value (prototype obj)
          else Object_prototype key
      | ParsedArray _ =>
          if String.eqb key "__proto__"
          then prototype_value (prototype obj)
          else match Array_prototype key with
               | Some v => Some v
               | None => Object_prototype key
               end
      end
  end.

(** [obj[key]] *)
Definition get (obj : t) (key : string) : JS.value :=
  match own obj !! key with
  | Some v => Some v
  | None => inherited obj key
  end.

End Members.

(** [obj[key] = v]. Every key but [__proto__] gets an own property. For
    [__proto__], an own property or a data property of a parsed
    prototype is shadowed by an own property; otherwise the setter of
    [Object.prototype] runs, which replaces the prototype when [v] is an
    object, an array or [null], and does nothing for any other value. *)
Definition set (obj : t) (key : string) (v : JS.json) : t :=
  let define :=
    {| own := <[key := v]> (own obj); prototype := prototype obj |} in
  if negb (String.eqb key "__proto__") then define
  else
    match own obj !! key, own_of_prototype (prototype obj) key,
          prototype obj with
    | Some _, _, _ => define
    | None, Some _, _ => define
    | None, None, NullPrototype => define
    | None, None, _ =>
        match v with
        | JS.JObject fields =>
            {| own := own obj; prototype := ParsedObject fields |}
        | JS.JArray items =>
            {| own := own obj; prototype := ParsedArray items |}
        | JS.JNull => {| own := own obj; prototype := NullPrototype |}
        | _ => obj
        end
    end.

End PlainObject.

(** The fields of the manager instance. [staticServerUrl] stays
    [undefined] when the server failed to start. *)
Record ComponentManager : Type := {
  mobileActiveTheme : option SNComponent;
  staticServerUrl : option string;
  thirdPartyIndexPaths : PlainObject.t
}.

Definition COMPONENTS_PATH : string := "/components".

(** ** Semantic versions *)

Module SemVer.

Definition digit_value (c : ascii) : option N :=
  let n := N_of_ascii c in
  if ((48 <=? n) && (n <=? 57))%N then Some (n - 48)%N else None.

Fixpoint digits_value (acc : N) (s : string) : option N :=
  match s with
  | EmptyString => Some acc
  | String c s' =>
      match digit_value c with
      | Some d => digits_value (10 * acc + d)%N s'
      | None => None
      end
  end.

(** The number a segment denotes; [None] for an empty or non-numeric one. *)
Definition segment_value (s : string) : option N :=
  match s with
  | EmptyString => None
  | _ => digits_value 0%N s
  end.

(** The dot-separated segments of a version text. *)
Definition segments (s : string) : list string := JS.split_on "." s.

Record t : Type := {
  major : option N;
  minor : option N;
  patch : option N
}.

Definition nth_segment (n : nat) (l : list string) : option N :=
  match nth_error l n with
  | Some s => segment_value s
  | None => None
  end.

(** Only a string carries segments; every other value has none. *)
Definition of_value (v : JS.value) : t :=
  match v with
  | Some (JS.JString s) =>
      let l := segments s in
      {| major := nth_segment 0 l;
         minor := nth_segment 1 l;
         patch := nth_segment 2 l |}
  | _ => {| major := None; minor := None; patch := None |}
  end.

(** A missing segment is below every number. *)
Definition seg_compare (a b : option N) : comparison :=
  match a, b with
  | None, None => Eq
  | None, Some _ => Lt
  | Some _, None => Gt
  | Some x, Some y => (x ?= y)%N
  end.

Definition compare (l r : t) : comparison :=
  match seg_compare (major l) (major r) with
  | Eq =>
      match seg_compare (minor l) (minor r) with
      | Eq => seg_compare (patch l) (patch r)
      | c => c
      end
  | c => c
  end.

End SemVer.

(** Modelled from the spec: [isRightVersionGreaterThanLeft], imported from
    the snjs package, is not among the sources. The spec describes it as
    a semantic-version comparison, "major.minor.patch ordering;
    non-numeric/missing segments treated as lowest", that holds when the
    right version is strictly greater than the left one. *)
Definition isRightVersionGreaterThanLeft (left right : JS.value) : bool :=
  match SemVer.compare (SemVer.of_value left) (SemVer.of_value right) with
  | Lt => true
  | _ => false
  end.

(** ** URL-safe Base64, as [Base64.encodeURI] of js-base64

    [Base64.encodeURI] encodes the UTF-8 bytes of its argument with the
    alphabet [A-Za-z0-9-_] and drops the [=] padding. A text is identified
    here with its UTF-8 bytes. *)

Module Base64.

(** Six bits, most significant first. *)
Definition sextet : Type := (bool * bool * bool * bool * bool * bool)%type.

Definition sextet_index (s : sextet) : N :=
  let '(b5, b4, b3, b2, b1, b0) := s in
  (N.b2n b0 + 2 * (N.b2n b1 + 2 * (N.b2n b2 + 2 * (N.b2n b3
     + 2 * (N.b2n b4 + 2 * N.b2n b5)))))%N.

Definition index_sextet (n : N) : sextet :=
  (N.testbit n 5, N.testbit n 4, N.testbit n 3,
   N.testbit n 2, N.testbit n 1, N.testbit n 0).

Definition char_of_index (n : N) : ascii :=
  if (n <? 26)%N then ascii_of_N (65 + n)
  else if (n <? 52)%N then ascii_of_N (97 + (n - 26))
  else if (n <? 62)%N then ascii_of_N (48 + (n - 52))
  else if (n =? 62)%N then "-"%char
  else "_"%char.

Definition index_of_char (c : ascii) : option N :=
  let n := N_of_ascii c in
  if ((65 <=? n) && (n <=? 90))%N then Some (n - 65)%N
  else if ((97 <=? n) && (n <=? 122))%N then Some (n - 97 + 26)%N
  else if ((48 <=? n) && (n <=? 57))%N then Some (n - 48 + 52)%N
  else if (n =? 45)%N then Some 62%N
  else if (n =? 95)%N then Some 63%N
  else None.

Definition char_of_sextet (s : sextet) : ascii :=
  char_of_index (sextet_index s).

Definition sextet_of_char (c : ascii) : option sextet :=
  match index_of_char c with
  | Some n => Some (index_sextet n)
  | None => None
  end.

(** The bits of a byte, most significant first. *)
Definition bits (c : ascii)
  : bool * bool * bool * bool * bool * bool * bool * bool :=
  let 'Ascii b0 b1 b2 b3 b4 b5 b6 b7 := c in
  (b7, b6, b5, b4, b3, b2, b1, b0).

Definition byte (b7 b6 b5 b4 b3 b2 b1 b0 : bool) : ascii :=
  Ascii b0 b1 b2 b3 b4 b5 b6 b7.

Fixpoint encodeURI (s : string) : string :=
  match s with
  | EmptyString => EmptyString
  | String x EmptyString =>
      let '(x7, x6, x5, x4, x3, x2, x1, x0) := bits x in
      String (char_of_sextet (x7, x6, x5, x4, x3, x2))
        (String (char_of_sextet (x1, x0, false, false, false, false))
           EmptyString)
  | String x (String y EmptyString) =>
      let '(x7, x6, x5, x4, x3, x2, x1, x0) := bits x in
      let '(y7, y6, y5, y4, y3, y2, y1, y0) := bits y in
      String (char_of_sextet (x7, x6, x5, x4, x3, x2))
        (String (char_of_sextet (x1, x0, y7, y6, y5, y4))
           (String (char_of_sextet (y3, y2, y1, y0, false, false))
              EmptyString))
  | String x (String y (String z rest)) =>
      let '(x7, x6, x5, x4, x3, x2, x1, x0) := bits x in
      let '(y7, y6, y5, y4, y3, y2, y1, y0) := bits y in
      let '(z7, z6, z5, z4, z3, z2, z1, z0) := bits z in
      String (char_of_sextet (x7, x6, x5, x4, x3, x2))
        (String (char_of_sextet (x1, x0, y7, y6, y5, y4))
           (String (char_of_sextet (y3, y2, y1, y0, z7, z6))
              (String (char_of_sextet (z5, z4, z3, z2, z1, z0))
                 (encodeURI rest))))
  end.

(** Decoding of unpadded URL-safe Base64; [None] on a character outside
    the alphabet or on a dangling single character. *)
Fixpoint decode (s : string) : option string :=
  match s with
  | EmptyString => Some EmptyString
  | String _ EmptyString => None
  | String a (String b EmptyString) =>
      match sextet_of_char a, sextet_of_char b with
      | Some (a5, a4, a3, a2, a1, a0), Some (b5, b4, _, _, _, _) =>
          Some (String (byte a5 a4 a3 a2 a1 a0 b5 b4) EmptyString)
      | _, _ => None
      end
  | String a (String b (String c EmptyString)) =>
      match sextet_of_char a, sextet_of_char b, sextet_of_char c with
      | Some (a5, a4, a3, a2, a1, a0), Some (b5, b4, b3, b2, b1, b0),
        Some (c5, c4, c3, c2, _, _) =>
          Some (String (byte a5 a4 a3 a2 a1 a0 b5 b4)
                  (String (byte b3 b2 b1 b0 c5 c4 c3 c2) EmptyString))
      | _, _, _ => None
      end
  | String a (String b (String c (String d rest))) =>
      match sextet_of_char a, sextet_of_char b,
            sextet_of_char c, sextet_of_char d, decode rest with
      | Some (a5, a4, a3, a2, a1, a0), Some (b5, b4, b3, b2, b1, b0),
        Some (c5, c4, c3, c2, c1, c0), Some (d5, d4, d3, d2, d1, d0),
        Some tail =>
          Some (String (byte a5 a4 a3 a2 a1 a0 b5 b4)
                  (String (byte b3 b2 b1 b0 c5 c4 c3 c2)
                     (String (byte c1 c0 d5 d4 d3 d2 d1 d0) tail)))
      | _, _, _, _, _ => None
      end
  end.

End Base64.

(** ** The manager *)

Section Manager.

Context {W : Type} {G : Collaborators W}.

(** The registry data bundled with the app: the list [Features] and the
    object [FeatureChecksums] loaded from [checksums.json]. *)
Variable Features : list FeatureDescription.
Variable FeatureChecksums : gmap string FeatureChecksum.

(** [DocumentDirectoryPath], a constant of the platform. *)
Variable BASE_DOCUMENTS_PATH : string.

(** [JSON.parse]; [None] when it throws a [SyntaxError]. *)
Variable JSON_parse : string -> option JS.json.

(** [objectToCss] of the style module, the stylesheet text of a theme's
    variables. *)
Variable objectToCss : ThemeVariables -> string.

(** [super.urlForComponent], the resolution of the parent class. *)
Variable super_urlForComponent : SNComponent -> Res string.

(** The members of [Object.prototype] and of [Array.prototype]
    ([constructor], [toString], [push], ...), which the plain object
    [thirdPartyIndexPaths] inherits and reads when it has no own
    property of that name. *)
Variable Object_prototype : string -> option JS.json.
Variable Array_prototype : string -> option JS.json.

Local Open Scope async_scope.

Definition nativeFeatureForIdentifier (identifier : string)
  : option FeatureDescription :=
  find (fun feature => String.eqb (feature_identifier feature) identifier)
       Features.

Definition isComponentThirdParty (identifier : string) : bool :=
  match nativeFeatureForIdentifier identifier with
  | Some _ => false
  | None => true
  end.

(** [nativeFeature?.download_url || component.package_info?.download_url] *)
Definition downloadUrlOf (component : SNComponent) : option string :=
  JS.or_string
    (nativeFeatureForIdentifier (identifier component)
       ≫= feature_download_url)
    (package_info component ≫= download_url).

(** [nativeFeature?.version || component.package_info?.version] *)
Definition latestVersionOf (component : SNComponent) : option string :=
  JS.or_string
    (nativeFeatureForIdentifier (identifier component) ≫= feature_version)
    (package_info component ≫= version).

Definition isComponentDownloadable (component : SNComponent) : bool :=
  JS.truthy_string (downloadUrlOf component).

Definition pathForComponent (identifier : string) : string :=
  BASE_DOCUMENTS_PATH +:+ COMPONENTS_PATH +:+ "/" +:+ identifier.

Definition tmpLocationOf (identifier : string) : string :=
  BASE_DOCUMENTS_PATH +:+ "/" +:+ identifier +:+ ".zip".

Definition tmpMovePathOf (identifier : string) : string :=
  BASE_DOCUMENTS_PATH +:+ "/" +:+ identifier.


Definition getFile (identifier relativePath : string)
  : Async W (option string) :=
  let componentPath := pathForComponent identifier in
  present <- RNFS_exists componentPath ;;
  if negb present then ret None
  else
    let filePath := componentPath +:+ "/" +:+ relativePath in
    present <- RNFS_exists filePath ;;
    if negb present then ret None
    else
      fileContents <- RNFS_readFile filePath Utf8 ;;
      ret (Some fileContents).

(** The result is a JavaScript value: [undefined] when there is no file
    (or an empty one), whatever [JSON.parse] gives otherwise. *)
Definition getDownloadedComponentPackageJsonFile (identifier : string)
  : Async W JS.value :=
  file <- getFile identifier "package.json" ;;
  if negb (JS.truthy_string file) then ret None
  else
    match JSON_parse (default "" file) with
    | Some packageJson => ret (Some packageJson)
    | None => throw "SyntaxError"
    end.

Definition doesComponentNeedDownload (component : SNComponent)
  : Async W bool :=
  let identifier := identifier component in
  let downloadUrl := downloadUrlOf component in
  if negb (JS.truthy_string downloadUrl)
  then throw "Attempting to download component with no download url"
  else
    let version := latestVersionOf component in
    existingPackageJson <- getDownloadedComponentPackageJsonFile identifier ;;
    let existingVersion := JS.get existingPackageJson "version" in
    let shouldDownload :=
      negb (JS.truthy existingPackageJson)
      || isRightVersionGreaterThanLeft existingVersion
           (JS.JString <$> version) in
    ret shouldDownload.

(** [FeatureChecksums[featureIdentifier]?.base64]. A member inherited
    from [Object.prototype] has no [base64] property, so an identifier
    naming one reads [undefined] like an absent entry. *)
Definition desiredChecksumOf (featureIdentifier : string) : option string :=
  FeatureChecksums !! featureIdentifier ≫= base64.

Definition passesChecksumValidation (filePath featureIdentifier : string)
  : Async W bool :=
  zipContents <- RNFS_readFile filePath Base64Text ;;
  checksum <- crypto_sha256 zipContents ;;
  let desiredChecksum := desiredChecksumOf featureIdentifier in
  if negb (JS.truthy_string desiredChecksum) then ret false
  else if negb (bool_decide (Some checksum = desiredChecksum)) then ret false
  else ret true.

(** Lines 257-272 of [performDownloadComponent]: when the extracted root
    holds a single directory, that directory replaces the root. *)
Definition normalizeLayout (identifier : string) : Async W unit :=
  let componentPath := pathForComponent identifier in
  directoryContents <- RNFS_readDir componentPath ;;
  let isNestedArchive :=
    match directoryContents with
    | [entry] => item_isDirectory entry
    | _ => false
    end in
  if isNestedArchive then
    match directoryContents with
    | nestedDir :: _ =>
        let tmpMovePath := tmpMovePathOf identifier in
        RNFS_moveFile (item_path nestedDir) tmpMovePath ;;;
        RNFS_unlink componentPath ;;;
        RNFS_moveFile tmpMovePath componentPath
    | [] => ret tt
    end
  else ret tt.

Definition performDownloadComponent (identifier downloadUrl : string)
  : Async W (option ComponentLoadingError) :=
  let tmpLocation := tmpLocationOf identifier in
  stale <- RNFS_exists tmpLocation ;;
  (if stale then RNFS_unlink tmpLocation else ret tt) ;;;
  statusCode <- RNFS_downloadFile downloadUrl tmpLocation ;;
  if negb (JS.startsWith (JS.String_number statusCode) "2")
  then ret (Some FailedDownload)
  else
    let extract : Async W (option ComponentLoadingError) :=
      let componentPath := pathForComponent identifier in
      unzip tmpLocation componentPath ;;;
      normalizeLayout identifier ;;;
      RNFS_unlink tmpLocation ;;;
      ret None in
    let requireChecksumVerification :=
      negb (isComponentThirdParty identifier) in
    if requireChecksumVerification then
      passes <- passesChecksumValidation tmpLocation identifier ;;
      if negb passes then ret (Some ChecksumMismatch) else extract
    else extract.

Definition downloadComponentOffline (component : SNComponent)
  : Async W (option ComponentLoadingError) :=
  let identifier := identifier component in
  let downloadUrl := downloadUrlOf component in
  if negb (JS.truthy_string downloadUrl)
  then throw "Attempting to download component with no download url"
  else
    error <- try_catch
               (performDownloadComponent identifier (default "" downloadUrl))
               (fun _ => ret (Some Unknown)) ;;
    match error with
    | Some _ => ret error
    | None =>
        let componentPath := pathForComponent identifier in
        present <- RNFS_exists componentPath ;;
        if negb present then ret (Some DoesntExist) else ret error
    end.

(** [this.thirdPartyIndexPaths[identifier]] *)
Definition cachedIndexPath (this : ComponentManager) (identifier : string)
  : JS.value :=
  PlainObject.get Object_prototype Array_prototype
    (thirdPartyIndexPaths this) identifier.

Definition getIndexFileRelativePath (this : ComponentManager)
  (identifier : string) : JS.value :=
  match nativeFeatureForIdentifier identifier with
  | Some nativeFeature => JS.JString <$> feature_index_path nativeFeature
  | None => cachedIndexPath this identifier
  end.

(** Returns the manager with its cache updated. *)
Definition preloadThirdPartyIndexPathFromDisk (this : ComponentManager)
  (identifier : string) : Async W ComponentManager :=
  packageJson <- getDownloadedComponentPackageJsonFile identifier ;;
  let main := JS.or (JS.get (JS.get packageJson "sn") "main")
                    (Some (JS.JString "index.html")) in
  ret {| mobileActiveTheme := mobileActiveTheme this;
         staticServerUrl := staticServerUrl this;
         thirdPartyIndexPaths :=
           match main with
           | Some path =>
               PlainObject.set (thirdPartyIndexPaths this) identifier path
           | None => thirdPartyIndexPaths this
           end |}.

Definition getIndexFile (this : ComponentManager) (identifier : string)
  : Async W (ComponentManager * option string) :=
  this' <- (if isComponentThirdParty identifier
            then preloadThirdPartyIndexPathFromDisk this identifier
            else ret this) ;;
  let relativePath := getIndexFileRelativePath this' identifier in
  file <- getFile identifier (JS.template relativePath) ;;
  ret (this', file).

Definition urlForComponent (this : ComponentManager)
  (component : SNComponent) : Res string :=
  if isTheme component && isSystemTheme component then
    let cssData := objectToCss (variables component) in
    let encoded := Base64.encodeURI cssData in
    Ok ("data:text/css;base64," +:+ encoded)
  else if negb (isComponentDownloadable component) then
    super_urlForComponent component
  else
    let identifier := identifier component in
    let componentPath := pathForComponent identifier in
    let indexFilePath := getIndexFileRelativePath this identifier in
    if negb (JS.truthy indexFilePath) then
      Threw "Third party index path was not preloaded"
    else
      let relativePackagePath := JS.split_last COMPONENTS_PATH componentPath in
      let relativeMainFilePath :=
        relativePackagePath +:+ "/" +:+ JS.template indexFilePath in
      Ok (JS.template (JS.JString <$> staticServerUrl this)
          +:+ relativeMainFilePath).

(** The broadcast [postActiveThemesToAllViewers] of the parent class is
    left out: only the field changes. *)
Definition setMobileActiveTheme (this : ComponentManager)
  (theme : SNComponent) : ComponentManager :=
  {| mobileActiveTheme := Some theme;
     staticServerUrl := staticServerUrl this;
     thirdPartyIndexPaths := thirdPartyIndexPaths this |}.

Definition getActiveThemes (this : ComponentManager) : list SNComponent :=
  match mobileActiveTheme this with
  | Some theme => [theme]
  | None => []
  end.

End Manager.

(** ** Observing the calls made to the collaborators *)

Inductive Event : Type :=
| EvExists (path : string) (answer : Res bool)
| EvUnlink (path : string) (answer : Res unit)
| EvDownloadFile (fromUrl toFile : string) (answer : Res Z)
| EvReadFile (path : string) (encoding : Encoding) (answer : Res string)
| EvReadDir (path : string) (answer : Res (list ReadDirItem))
| EvMoveFile (source target : string) (answer : Res unit)
| EvUnzip (source target : string) (answer : Res unit)
| EvSha256 (text : string) (answer : Res string).

Definition record {W A} (event : Res A -> Event) (call : Async W A)
  : Async (W * list Event) A :=
  fun '(w, log) =>
    let '(answer, w') := call w in
    (answer, (w', log ++ [event answer])).

(** Any collaborators, with every call and its answer appended to a log. *)
Definition recording {W} (G : Collaborators W)
  : Collaborators (W * list Event) :=
  {| RNFS_exists p := record (EvExists p) (RNFS_exists p);
     RNFS_unlink p := record (EvUnlink p) (RNFS_unlink p);
     RNFS_downloadFile u p :=
       record (EvDownloadFile u p) (RNFS_downloadFile u p);
     RNFS_readFile p e := record (EvReadFile p e) (RNFS_readFile p e);
     RNFS_readDir p := record (EvReadDir p) (RNFS_readDir p);
     RNFS_moveFile a b := record (EvMoveFile a b) (RNFS_moveFile a b);
     unzip a b := record (EvUnzip a b) (unzip a b);
     crypto_sha256 t := record (EvSha256 t) (crypto_sha256 t) |}.

(** Calls of the checksum verification. *)
Definition is_checksum_call (ev : Event) : bool :=
  match ev with
  | EvSha256 _ _ | EvReadFile _ Base64Text _ => true
  | _ => false
  end.

(** Calls of the extraction and of the layout normalization. *)
Definition is_extraction_call (ev : Event) : bool :=
  match ev with
  | EvUnzip _ _ _ | EvReadDir _ _ | EvMoveFile _ _ _ => true
  | _ => false
  end.

(** The paths a call may create, replace or delete. *)
Definition written_paths (ev : Event) : list string :=
  match ev with
  | EvUnlink p _ => [p]
  | EvDownloadFile _ p _ => [p]
  | EvMoveFile a b _ => [a; b]
  | EvUnzip _ target _ => [target]
  | _ => []
  end.

(** ** Scripted collaborators

    The world is the list of answers still to be given: each call takes
    the next one, which must be an answer to that very call. *)

Definition unscripted {A} : Res A := Threw "unscripted call".

Definition scripted : Collaborators (list Event) :=
  {| RNFS_exists p := fun script =>
       match script with
       | EvExists p' r :: rest =>
           if bool_decide (p = p') then (r, rest) else (unscripted, script)
       | _ => (unscripted, script)
       end;
     RNFS_unlink p := fun script =>
       match script with
       | EvUnlink p' r :: rest =>
           if bool_decide (p = p') then (r, rest) else (unscripted, script)
       | _ => (unscripted, script)
       end;
     RNFS_downloadFile u p := fun script =>
       match script with
       | EvDownloadFile u' p' r :: rest =>
           if bool_decide (u = u' /\ p = p') then (r, rest)
           else (unscripted, script)
       | _ => (unscripted, script)
       end;
     RNFS_readFile p e := fun script =>
       match script with
       | EvReadFile p' _ r :: rest =>
           if bool_decide (p = p') then (r, rest) else (unscripted, script)
       | _ => (unscripted, script)
       end;
     RNFS_readDir p := fun script =>
       match script with
       | EvReadDir p' r :: rest =>
           if bool_decide (p = p') then (r, rest) else (unscripted, script)
       | _ => (unscripted, script)
       end;
     RNFS_moveFile a b := fun script =>
       match script with
       | EvMoveFile a' b' r :: rest =>
           if bool_decide (a = a' /\ b = b') then (r, rest)
           else (unscripted, script)
       | _ => (unscripted, script)
       end;
     unzip a b := fun script =>
       match script with
       | EvUnzip a' b' r :: rest =>
           if bool_decide (a = a' /\ b = b') then (r, rest)
           else (unscripted, script)
       | _ => (unscripted, script)
       end;
     crypto_sha256 t := fun script =>
       match script with
       | EvSha256 t' r :: rest =>
           if bool_decide (t = t') then (r, rest) else (unscripted, script)
       | _ => (unscripted, script)
       end |}.

(** ** A filesystem of files and directories

    The storage behind the filesystem gateway, as a tree. A path text is
    read as its [/]-separated names, empty names dropped. *)

Module FS.

Inductive node : Type :=
| File (contents : string)
| Dir (entries : list (string * node)).

Definition path : Type := list string.


Definition nonempty (s : string) : bool := negb (String.eqb s "").

Definition parse (s : string) : path :=
  List.filter nonempty (JS.split_on "/" s).

Definition is_dir (n : node) : bool :=
  match n with
  | Dir _ => true
  | File _ => false
  end.

(** A single name: not empty and without [/]. *)
Definition is_name (s : string) : bool :=
  nonempty s && negb (JS.has_char "/" s).


(** Entries of a directory, by name. *)
Fixpoint set_entry (name : string) (n : node) (l : list (string * node))
  : list (string * node) :=
  match l with
  | [] => [(name, n)]
  | (name', n') :: l' =>
      if String.eqb name' name then (name, n) :: l'
      else (name', n') :: set_entry name n l'
  end.

Fixpoint del_entry (name : string) (l : list (string * node))
  : list (string * node) :=
  match l with
  | [] => []
  | (name', n') :: l' =>
      if String.eqb name' name then del_entry name l'
      else (name', n') :: del_entry name l'
  end.

Fixpoint lookup (p : path) (n : node) : option node :=
  match p with
  | [] => Some n
  | name :: p' =>
      match n with
      | Dir entries =>
          match JS.assoc name entries with
          | Some child => lookup p' child
          | None => None
          end
      | File _ => None
      end
  end.

(** Deletes the file or the whole directory at [p], if any. *)
Fixpoint remove (p : path) (n : node) : node :=
  match p, n with
  | [], _ => n
  | [name], Dir entries => Dir (del_entry name entries)
  | name :: p', Dir entries =>
      match JS.assoc name entries with
      | Some child => Dir (set_entry name (remove p' child) entries)
      | None => n
      end
  | _ :: _, File _ => n
  end.

(** Puts [new] at [p], replacing what is there; the parent of [p] has to
    be a directory. *)
Fixpoint insert (p : path) (new : node) (n : node) : option node :=
  match p, n with
  | [], _ => Some new
  | [name], Dir entries => Some (Dir (set_entry name new entries))
  | name :: p', Dir entries =>
      match JS.assoc name entries with
      | Some child =>
          match insert p' new child with
          | Some child' => Some (Dir (set_entry name child' entries))
          | None => None
          end
      | None => None
      end
  | _ :: _, File _ => None
  end.

Definition exists_at (p : path) (root : node) : bool :=
  match lookup p root with
  | Some _ => true
  | None => false
  end.

Definition item_of (dir : string) (entry : string * node) : ReadDirItem :=
  {| item_name := entry.1;
     item_path := dir +:+ "/" +:+ entry.1;
     item_isDirectory := is_dir entry.2 |}.

(** Unpacked entries land in the target directory over what it holds. *)
Definition merge (new old : list (string * node)) : list (string * node) :=
  fold_left (fun acc entry => set_entry entry.1 entry.2 acc) new old.

Section Gateway.

(** What a URL serves: status code and body; [None] when the transfer
    itself fails. *)
Variable network : string -> option (Z * string).
(** The digest function of the crypto service. *)
Variable sha256 : string -> string.
(** The Base64 text of a file's bytes, as [readFile(_, 'base64')] gives. *)
Variable base64_of_bytes : string -> string.
(** The entries packed in an archive; [None] for a corrupt one. *)
Variable unarchive : string -> option (list (string * node)).

Definition fs_exists (p : string) : Async node bool :=
  fun root => (Ok (exists_at (parse p) root), root).

Definition fs_unlink (p : string) : Async node unit :=
  fun root =>
    if exists_at (parse p) root
    then (Ok tt, remove (parse p) root)
    else (Threw "ENOENT", root).

Definition fs_readFile (p : string) (enc : Encoding) : Async node string :=
  fun root =>
    match lookup (parse p) root with
    | Some (File contents) =>
        (Ok match enc with
            | Utf8 => contents
            | Base64Text => base64_of_bytes contents
            end, root)
    | Some (Dir _) => (Threw "EISDIR", root)
    | None => (Threw "ENOENT", root)
    end.

Definition fs_readDir (p : string) : Async node (list ReadDirItem) :=
  fun root =>
    match lookup (parse p) root with
    | Some (Dir entries) => (Ok (List.map (item_of p) entries), root)
    | Some (File _) => (Threw "ENOTDIR", root)
    | None => (Threw "ENOENT", root)
    end.

(** A move needs an existing source and a free target. *)
Definition fs_moveFile (source target : string) : Async node unit :=
  fun root =>
    match lookup (parse source) root with
    | None => (Threw "ENOENT", root)
    | Some moved =>
        if exists_at (parse target) root then (Threw "EEXIST", root)
        else
          match insert (parse target) moved (remove (parse source) root) with
          | Some root' => (Ok tt, root')
          | None => (Threw "ENOENT", root)
          end
    end.

Definition fs_downloadFile (fromUrl toFile : string) : Async node Z :=
  fun root =>
    match network fromUrl with
    | None => (Threw "network request failed", root)
    | Some (statusCode, body) =>
        match insert (parse toFile) (File body) root with
        | Some root' => (Ok statusCode, root')
        | None => (Threw "ENOENT", root)
        end
    end.

Definition fs_unzip (source target : string) : Async node unit :=
  fun root =>
    match lookup (parse source) root with
    | Some (File contents) =>
        match unarchive contents with
        | None => (Threw "corrupt archive", root)
        | Some entries =>
            let unpacked :=
              match lookup (parse target) root with
              | Some (Dir old) => Dir (merge entries old)
              | _ => Dir entries
              end in
            match insert (parse target) unpacked root with
            | Some root' => (Ok tt, root')
            | None => (Threw "ENOENT", root)
            end
        end
    | _ => (Threw "ENOENT", root)
    end.

Definition gateway : Collaborators node :=
  {| RNFS_exists := fs_exists;
     RNFS_unlink := fs_unlink;
     RNFS_downloadFile := fs_downloadFile;
     RNFS_readFile := fs_readFile;
     RNFS_readDir := fs_readDir;
     RNFS_moveFile := fs_moveFile;
     unzip := fs_unzip;
     crypto_sha256 := fun text root => (Ok (sha256 text), root) |}.

End Gateway.

End FS.

(** ** The note action sheet (view-model of [NoteBottomSheet]) *)

Module ActionSheet.

Inductive ActionSection : Type := History | CommonActions | ListedSection.

Inductive NoteAction : Type :=
| Pin
| Archive
| Lock
| Protect
| OpenHistory
| ShareAction
| Trash
| Restore
| DeletePermanently
| Listed.

(** The string value of each member of the enum. *)
Definition NoteAction_value (a : NoteAction) : string :=
  match a with
  | Pin => "pin"
  | Archive => "archive"
  | Lock => "lock"
  | Protect => "protect"
  | OpenHistory => "history"
  | ShareAction => "share"
  | Trash => "trash"
  | Restore => "restore-note"
  | DeletePermanently => "delete-forever"
  | Listed => "listed"
  end.

Inductive IconType : Type :=
| IconHistory
| IconProtect
| IconPin
| IconArchive
| IconLock
| IconShare
| IconTrash.

(** The flags and texts of a note that the sheet reads. *)
Record SNNote : Type := {
  title : string;
  text : string;
  pinned : bool;
  archived : bool;
  locked : bool;
  protected : bool;
  trashed : bool
}.

(** What [changeNote] is asked to set. *)
Inductive Mutation : Type :=
| SetPinned (b : bool)
| SetArchived (b : bool)
| SetLocked (b : bool)
| SetTrashed (b : bool).

(** What pressing an action does. *)
Inductive Command : Type :=
| ProtectOrUnprotectNote
| ChangeNote (m : Mutation)
| Alert (message : string)
| Share (title message : string)
| DeleteNote (permanently : bool).

Record BottomSheetActionType : Type := {
  action_text : string;
  action_key : NoteAction;
  iconType : option IconType;
  callback : Command;
  danger : bool;
  dismissSheetOnPress : bool
}.

Record BottomSheetSectionType : Type := {
  expandable : bool;
  section_key : ActionSection;
  actions : list BottomSheetActionType
}.

Section Sheet.

Variable note : SNNote.

Definition protectAction : BottomSheetActionType :=
  {| action_text := if protected note then "Unprotect" else "Protect";
     action_key := Protect;
     iconType := Some IconProtect;
     callback := ProtectOrUnprotectNote;
     danger := false;
     dismissSheetOnPress := true |}.

Definition pinAction : BottomSheetActionType :=
  {| action_text := if pinned note then "Unpin" else "Pin to top";
     action_key := Pin;
     iconType := Some IconPin;
     callback := ChangeNote (SetPinned (negb (pinned note)));
     danger := false;
     dismissSheetOnPress := true |}.

Definition archiveAction : BottomSheetActionType :=
  {| action_text := if archived note then "Unarchive" else "Archive";
     action_key := Archive;
     iconType := Some IconArchive;
     callback :=
       if locked note
       then Alert "This note is locked. If you'd like to archive it, unlock it, and try again."
       else ChangeNote (SetArchived (negb (archived note)));
     danger := false;
     dismissSheetOnPress := true |}.

Definition lockAction : BottomSheetActionType :=
  {| action_text := if locked note then "Unlock" else "Lock";
     action_key := Lock;
     iconType := Some IconLock;
     callback := ChangeNote (SetLocked (negb (locked note)));
     danger := false;
     dismissSheetOnPress := true |}.

Definition shareAction : BottomSheetActionType :=
  {| action_text := "Share";
     action_key := ShareAction;
     iconType := Some IconShare;
     callback := Share (title note) (text note);
     danger := false;
     dismissSheetOnPress := true |}.

Definition restoreAction : BottomSheetActionType :=
  {| action_text := "Restore";
     action_key := Restore;
     iconType := None;
     callback := ChangeNote (SetTrashed false);
     danger := false;
     dismissSheetOnPress := true |}.

Definition deleteAction : BottomSheetActionType :=
  {| action_text := "Delete permanently";
     action_key := DeletePermanently;
     iconType := None;
     callback := DeleteNote true;
     danger := true;
     dismissSheetOnPress := true |}.

Definition moveToTrashAction : BottomSheetActionType :=
  {| action_text := "Move to Trash";
     action_key := Trash;
     iconType := Some IconTrash;
     callback := DeleteNote false;
     danger := false;
     dismissSheetOnPress := true |}.

Definition commonSection : BottomSheetSectionType :=
  let trashActions :=
    if trashed note
    then [restoreAction; deleteAction]
    else [moveToTrashAction] in
  let actions :=
    if protected note
    then [protectAction]
    else [pinAction; archiveAction; lockAction; protectAction; shareAction]
         ++ trashActions in
  {| expandable := false;
     section_key := CommonActions;
     actions := actions |}.

End Sheet.

End ActionSheet.

(** ** Absence of a file, as the gateway reports it *)

(** The existence probes of [getFile] answer that the install directory
    of [identifier], or the file [relativePath] in it, is not there;
    [w'] is the world after the last probe. *)
Definition reported_absent {W} {G : Collaborators W}
  (BASE_DOCUMENTS_PATH identifier relativePath : string) (w w' : W) : Prop :=
  let componentPath := pathForComponent BASE_DOCUMENTS_PATH identifier in
  RNFS_exists componentPath w = (Ok false, w')
  \/ exists w1,
       RNFS_exists componentPath w = (Ok true, w1)
       /\ RNFS_exists (componentPath +:+ "/" +:+ relativePath) w1
          = (Ok false, w').

(** ** Sample data *)

Module Sample.

Definition BASE : string := "/docs".

(** A feature of the registry, with its expected checksum. *)
Definition editor_id : string := "com.example.editor".
Definition editor_url : string := "https://example.com/editor.zip".

Definition editor_feature : FeatureDescription :=
  {| feature_identifier := editor_id;
     feature_download_url := Some editor_url;
     feature_version := Some "1.3.0";
     feature_index_path := Some "dist/index.html" |}.

Definition Features : list FeatureDescription := [editor_feature].

Definition FeatureChecksums : gmap string FeatureChecksum :=
  {[ editor_id := {| base64 := Some "AAA=" |} ]}.

Definition editor : SNComponent :=
  {| identifier := editor_id;
     package_info := None;
     isTheme := false;
     isSystemTheme := false;
     variables := [] |}.

(** A third-party plugin, unknown to the registry. *)
Definition plugin_id : string := "com.thirdparty.markdown".
Definition plugin_url : string := "https://thirdparty.example/markdown.zip".

Definition plugin : SNComponent :=
  {| identifier := plugin_id;
     package_info := Some {| download_url := Some plugin_url;
                             version := Some "1.3.0" |};
     isTheme := false;
     isSystemTheme := false;
     variables := [] |}.

(** A component that cannot be downloaded. *)
Definition local_only : SNComponent :=
  {| identifier := "com.thirdparty.local";
     package_info := None;
     isTheme := false;
     isSystemTheme := false;
     variables := [] |}.

(** A built-in theme. *)
Definition system_theme : SNComponent :=
  {| identifier := "org.standardnotes.theme-dark";
     package_info := None;
     isTheme := true;
     isSystemTheme := true;
     variables := [("--sn-stylekit-background-color", "#20202b")] |}.

Definition objectToCss (vars : ThemeVariables) : string :=
  ":root{"
  +:+ JS.join "" (List.map (fun v => v.1 +:+ ":" +:+ v.2 +:+ ";") vars)
  +:+ "}".

Definition super_urlForComponent (_ : SNComponent) : Res string :=
  Threw "no hosted url".

Definition Object_prototype (key : string) : option JS.json :=
  if bool_decide (key = "constructor")
  then Some (JS.JString "function Object() { [native code] }")
  else None.

Definition Array_prototype (key : string) : option JS.json :=
  if bool_decide (key = "push")
  then Some (JS.JString "function push() { [native code] }")
  else None.

Definition manager : ComponentManager :=
  {| mobileActiveTheme := None;
     staticServerUrl := Some "http://localhost:8080";
     thirdPartyIndexPaths := PlainObject.empty |}.

(** Manifests, by their text. *)
Definition quote : string := String (ascii_of_nat 34) EmptyString.

Definition manifest_of (version : string) : string :=
  "{" +:+ quote +:+ "version" +:+ quote +:+ ":"
  +:+ quote +:+ version +:+ quote +:+ "}".

Definition manifest_1_2_0 : string := manifest_of "1.2.0".
Definition manifest_1_3_0 : string := manifest_of "1.3.0".

Definition JSON_parse (text : string) : option JS.json :=
  if bool_decide (text = manifest_1_2_0)
  then Some (JS.JObject [("version", JS.JString "1.2.0")])
  else if bool_decide (text = manifest_1_3_0)
  then Some (JS.JObject [("version", JS.JString "1.3.0")])
  else None.

Definition editor_tmp : string := tmpLocationOf BASE editor_id.
Definition plugin_tmp : string := tmpLocationOf BASE plugin_id.
Definition plugin_path : string := pathForComponent BASE plugin_id.

(** The registry checksum is [AAA=], the archive hashes to [BBB=]. *)
Definition mismatch_script : list Event :=
  [EvExists editor_tmp (Ok false);
   EvDownloadFile editor_url editor_tmp (Ok 200%Z);
   EvReadFile editor_tmp Base64Text (Ok "UEsDBAoAAAAAAA");
   EvSha256 "UEsDBAoAAAAAAA" (Ok "BBB=")].

(** The server answers 404. *)
Definition not_found_script : list Event :=
  [EvExists plugin_tmp (Ok false);
   EvDownloadFile plugin_url plugin_tmp (Ok 404%Z)].

Definition flat_listing : list ReadDirItem :=
  [{| item_name := "index.html";
      item_path := plugin_path +:+ "/index.html";
      item_isDirectory := false |};
   {| item_name := "package.json";
      item_path := plugin_path +:+ "/package.json";
      item_isDirectory := false |}].

(** A complete installation of the plugin. *)
Definition install_script : list Event :=
  [EvExists plugin_tmp (Ok false);
   EvDownloadFile plugin_url plugin_tmp (Ok 200%Z);
   EvUnzip plugin_tmp plugin_path (Ok tt);
   EvReadDir plugin_path (Ok flat_listing);
   EvUnlink plugin_tmp (Ok tt);
   EvExists plugin_path (Ok true)].

(** The same installation, but the final existence check is rejected. *)
Definition rejected_check_script : list Event :=
  [EvExists plugin_tmp (Ok false);
   EvDownloadFile plugin_url plugin_tmp (Ok 200%Z);
   EvUnzip plugin_tmp plugin_path (Ok tt);
   EvReadDir plugin_path (Ok flat_listing);
   EvUnlink plugin_tmp (Ok tt);
   EvExists plugin_path (Threw "EACCES")].

(** The extraction fails. *)
Definition corrupt_archive_script : list Event :=
  [EvExists plugin_tmp (Ok false);
   EvDownloadFile plugin_url plugin_tmp (Ok 200%Z);
   EvUnzip plugin_tmp plugin_path (Threw "corrupt archive")].

(** Nothing is installed for the plugin. *)
Definition nothing_installed_script : list Event :=
  [EvExists plugin_path (Ok false)].

(** The plugin is installed with the given manifest text. *)
Definition installed_script (manifest : string) : list Event :=
  [EvExists plugin_path (Ok true);
   EvExists (plugin_path +:+ "/package.json") (Ok true);
   EvReadFile (plugin_path +:+ "/package.json") Utf8 (Ok manifest)].

(** Storage on which the plugin's archive was unpacked into a wrapping
    directory that itself holds a single directory. *)
Definition html : FS.node := FS.File "<html></html>".



(** Storage with nothing installed. *)
Definition fresh_storage : FS.node :=
  FS.Dir [("docs", FS.Dir [("components", FS.Dir [])])].

(** A network serving both archives, a crypto service whose digest of
    either is [BBB=], and the contents of the plugin's archive. *)
Definition serving (url : string) : option (Z * string) :=
  if bool_decide (url = editor_url) then Some (200%Z, "PK-editor")
  else if bool_decide (url = plugin_url) then Some (200%Z, "PK-plugin")
  else None.

Definition digest_BBB (_ : string) : string := "BBB=".

Definition unpack (contents : string) : option (list (string * FS.node)) :=
  if bool_decide (contents = "PK-plugin")
  then Some [("markdown-1.3.0",
              FS.Dir [("index.html", html);
                      ("package.json", FS.File manifest_1_3_0)])]
  else None.

Definition online_disk : Collaborators FS.node :=
  FS.gateway serving digest_BBB (fun bytes => bytes) unpack.

Definition offline (_ : string) : option (Z * string) := None.
Definition digest (text : string) : string := text.
Definition no_archive (_ : string) : option (list (string * FS.node)) := None.

Definition disk : Collaborators FS.node :=
  FS.gateway offline digest digest no_archive.

(** A trashed note. *)
Definition trashed_note : ActionSheet.SNNote :=
  {| ActionSheet.title := "Groceries";
     ActionSheet.text := "milk";
     ActionSheet.pinned := false;
     ActionSheet.archived := false;
     ActionSheet.locked := false;
     ActionSheet.protected := false;
     ActionSheet.trashed := true |}.

End Sample.


(** ** More readings of a log *)

(** Whether the call was answered by an exception. *)
Definition event_threw (ev : Event) : bool :=
  match ev with
  | EvExists _ (Threw _) | EvUnlink _ (Threw _)
  | EvDownloadFile _ _ (Threw _) | EvReadFile _ _ (Threw _)
  | EvReadDir _ (Threw _) | EvMoveFile _ _ (Threw _)
  | EvUnzip _ _ (Threw _) | EvSha256 _ (Threw _) => true
  | _ => false
  end.

Definition is_download_call (ev : Event) : bool :=
  match ev with
  | EvDownloadFile _ _ _ => true
  | _ => false
  end.

Definition is_unlink_call (ev : Event) : bool :=
  match ev with
  | EvUnlink _ _ => true
  | _ => false
  end.

(** The calls made after the first download call. *)
Fixpoint after_download (log : list Event) : list Event :=
  match log with
  | [] => []
  | ev :: rest => if is_download_call ev then rest else after_download rest
  end.

(** The calls made before the first download call. *)
Fixpoint before_download (log : list Event) : list Event :=
  match log with
  | [] => []
  | ev :: rest =>
      if is_download_call ev then [] else ev :: before_download rest
  end.

Definition no_download_url : exn :=
  "Attempting to download component with no download url".

(** Calls that only look at the storage. *)
Definition is_read_only_call (ev : Event) : bool :=
  match ev with
  | EvExists _ _ | EvReadFile _ Utf8 _ => true
  | _ => false
  end.

(** The path a call looks at or changes first. *)
Definition event_path (ev : Event) : string :=
  match ev with
  | EvExists p _ | EvUnlink p _ | EvReadFile p _ _ | EvReadDir p _ => p
  | EvDownloadFile _ p _ => p
  | EvMoveFile p _ _ | EvUnzip p _ _ => p
  | EvSha256 _ _ => ""
  end.



(** A call that looks, without writing, at the install directory of
    [identifier] or below it. *)
Definition reads_under (BASE_DOCUMENTS_PATH identifier : string)
  (ev : Event) : Prop :=
  is_read_only_call ev = true
  /\ String.prefix (pathForComponent BASE_DOCUMENTS_PATH identifier)
       (event_path ev) = true.

(** A call of the index file lookup: an existence probe or a text read
    of the install directory of [identifier], of its [package.json], or
    of the path made of the install directory, a slash and
    [relativePath] as it is, whatever that text holds. *)
Definition index_file_probe (BASE_DOCUMENTS_PATH identifier
  relativePath : string) (ev : Event) : Prop :=
  let componentPath := pathForComponent BASE_DOCUMENTS_PATH identifier in
  is_read_only_call ev = true
  /\ In (event_path ev)
       [componentPath;
        componentPath +:+ "/" +:+ "package.json";
        componentPath +:+ "/" +:+ relativePath].

(** ** The local server of the manager *)

Module Server.

Definition STATIC_SERVER_PORT : Z := 8080.

(** [new StaticServer(port, root, {localOnly})] *)
Record StaticServer : Type := {
  server_port : Z;
  server_root : string;
  localOnly : bool
}.

(** The manager with its field [staticServer], which is [undefined]
    until a server was started. *)
Record ServedManager : Type := {
  manager : ComponentManager;
  staticServer : option StaticServer
}.

Class ServerCollaborators (W : Type) : Type := {
  StaticServer_start : StaticServer -> Async W string;
  StaticServer_stop : StaticServer -> Async W unit;
  alertService_alert : string -> Async W unit;
  SNLog_error : exn -> Async W unit;
  (** [super.deinit()] *)
  super_deinit : Async W unit
}.

(** A call whose promise is not awaited: what it does to the world is
    done, its rejection does not reach the caller. *)
Definition not_awaited {W A} (call : Async W A) : Async W unit :=
  fun w => let '(_, w') := call w in (Ok tt, w').

Definition start_failure_message : string :=
  "Unable to start component server. "
  +:+ "Editors other than the Plain Editor will fail to load. "
  +:+ "Please restart the app and try again.".

Section Lifecycle.

Context {W : Type} {Sv : ServerCollaborators W}.
Variable BASE_DOCUMENTS_PATH : string.

Local Open Scope async_scope.

Definition createServer (this : ServedManager) : Async W ServedManager :=
  let path := BASE_DOCUMENTS_PATH +:+ COMPONENTS_PATH in
  let server := {| server_port := STATIC_SERVER_PORT;
                   server_root := path;
                   localOnly := true |} in
  try_catch
    (serverUrl <- StaticServer_start server ;;
     ret {| manager :=
              {| mobileActiveTheme := mobileActiveTheme (manager this);
                 staticServerUrl := Some serverUrl;
                 thirdPartyIndexPaths :=
                   thirdPartyIndexPaths (manager this) |};
            staticServer := Some server |})
    (fun e =>
       not_awaited (alertService_alert start_failure_message) ;;;
       SNLog_error e ;;;
       ret this).

(** [loggingEnabled] and [protocolService] are fields that no modelled
    method reads. *)
Definition initialize (this : ServedManager) : Async W ServedManager :=
  createServer this.

Definition deinit (this : ServedManager) : Async W unit :=
  super_deinit ;;;
  match staticServer this with
  | Some server => not_awaited (StaticServer_stop server)
  | None => throw "TypeError"
  end.

End Lifecycle.

End Server.

(** ** The actions of a Listed extension ([updateAction], [executeAction]) *)

Module ListedActions.

(** An [Action]: the members that the sheet reads or sets, and the
    others, which a spread copies along. *)
Record Action : Type := {
  verb : string;
  url : string;
  running : option bool;
  error : option bool;
  other_members : list (string * JS.json)
}.

(** An entry of [actions] may be a falsy value: [None]. *)
Record SNActionsExtension : Type := {
  uuid : string;
  actions : list (option Action)
}.

Record Params : Type := {
  params_running : option bool;
  params_error : option bool
}.

(** The function mapped over [extension.actions]. The parameter object
    is always passed, and an object is truthy. *)
Definition updatedAction (action : Action) (params : Params)
  (act : option Action) : option Action :=
  match act with
  | Some a =>
      if String.eqb (verb a) (verb action)
         && String.eqb (url a) (url action)
      then Some {| verb := verb action;
                   url := url action;
                   running := params_running params;
                   error := params_error params;
                   other_members := other_members action |}
      else act
  | None => act
  end.

(** Whether an entry has the verb and the URL of [action], and the
    action with the flags of the parameters. *)
Definition matches (action a : Action) : bool :=
  String.eqb (verb a) (verb action) && String.eqb (url a) (url action).

Definition flagged (action : Action) (params : Params) : Action :=
  {| verb := verb action;
     url := url action;
     running := params_running params;
     error := params_error params;
     other_members := other_members action |}.

(** The three parameter objects that [executeAction] passes. *)
Definition started : Params :=
  {| params_running := Some true; params_error := None |}.
Definition failed : Params :=
  {| params_running := None; params_error := Some true |}.
Definition finished : Params :=
  {| params_running := Some false; params_error := None |}.

(** The value assigned to [extensionMutator.actions]. *)
Definition updatedActions (action : Action) (extension : SNActionsExtension)
  (params : Params) : list (option Action) :=
  List.map (updatedAction action params) (actions extension).

Class SheetCollaborators (W : Type) : Type := {
  (** [application.changeItem(uuid, mutator => mutator.actions = ...)],
      by the value assigned *)
  application_changeItem : string -> list (option Action) -> Async W unit;
  (** [application.actionsManager.runAction(action, note, ...)], for the
      note of the sheet *)
  actionsManager_runAction : Action -> Async W JS.value
}.

(** The two pieces of component state that [executeAction] sets. *)
Record ReloadState : Type := {
  reloadListedExtensionUuid : option string;
  shouldReloadListedSections : bool
}.

Section Execution.

Context {W : Type} {Sh : SheetCollaborators W}.

(** Whether the application context holds an application. *)
Variable application : bool.

Local Open Scope async_scope.

Definition updateAction (action : Action) (extension : SNActionsExtension)
  (params : Params) : Async W unit :=
  if application
  then application_changeItem (uuid extension)
         (updatedActions action extension params)
  else ret tt.

Definition executeAction (action : Action) (extension : SNActionsExtension)
  (state : ReloadState) : Async W ReloadState :=
  updateAction action extension started ;;;
  response <- (if application then actionsManager_runAction action
               else ret None) ;;
  if JS.truthy (JS.get response "error") then
    updateAction action extension failed ;;;
    ret state
  else
    updateAction action extension finished ;;;
    ret {| reloadListedExtensionUuid := Some (uuid extension);
           shouldReloadListedSections := true |}.

End Execution.

(** The calls of [executeAction], with their answers. *)
Inductive SheetEvent : Type :=
| EvChangeItem (uuid : string) (assigned : list (option Action))
    (answer : Res unit)
| EvRunAction (action : Action) (answer : Res JS.value).

Definition logged {W A} (event : Res A -> SheetEvent) (call : Async W A)
  : Async (W * list SheetEvent) A :=
  fun '(w, log) =>
    let '(answer, w') := call w in
    (answer, (w', log ++ [event answer])).

Definition logging {W} (Sh : SheetCollaborators W)
  : SheetCollaborators (W * list SheetEvent) :=
  {| application_changeItem u a :=
       logged (EvChangeItem u a) (application_changeItem u a);
     actionsManager_runAction a :=
       logged (EvRunAction a) (actionsManager_runAction a) |}.

(** The updates that a log holds, in order. *)
Definition updates (log : list SheetEvent)
  : list (string * list (option Action)) :=
  omap (fun ev => match ev with
                  | EvChangeItem u a _ => Some (u, a)
                  | EvRunAction _ _ => None
                  end) log.

End ListedActions.

(** The keys of the actions that the common section of a note offers. *)
Definition offered (note : ActionSheet.SNNote)
  : list ActionSheet.NoteAction :=
  List.map ActionSheet.action_key
    (ActionSheet.actions (ActionSheet.commonSection note)).


(** ** More sample data *)

Module Scenario.

Import Sample.

(** The registry checksum is [AAA=] and so is the digest: the editor is
    installed from a flat archive. *)
Definition editor_path : string := pathForComponent BASE editor_id.

Definition editor_listing : list ReadDirItem :=
  [{| item_name := "dist";
      item_path := editor_path +:+ "/dist";
      item_isDirectory := true |};
   {| item_name := "package.json";
      item_path := editor_path +:+ "/package.json";
      item_isDirectory := false |}].

Definition verified_script : list Event :=
  [EvExists editor_tmp (Ok false);
   EvDownloadFile editor_url editor_tmp (Ok 200%Z);
   EvReadFile editor_tmp Base64Text (Ok "UEsDBAoAAAAAAA");
   EvSha256 "UEsDBAoAAAAAAA" (Ok "AAA=");
   EvUnzip editor_tmp editor_path (Ok tt);
   EvReadDir editor_path (Ok editor_listing);
   EvUnlink editor_tmp (Ok tt);
   EvExists editor_path (Ok true)].

(** An archive of an earlier attempt is in the way and cannot be
    deleted. *)
Definition stale_archive_script : list Event :=
  [EvExists plugin_tmp (Ok true);
   EvUnlink plugin_tmp (Threw "EBUSY")].

(** The plugin's archive wraps its files in one directory. *)
Definition wrapping_directory : ReadDirItem :=
  {| item_name := "markdown-1.3.0";
     item_path := plugin_path +:+ "/markdown-1.3.0";
     item_isDirectory := true |}.

Definition wrapped_install_script : list Event :=
  [EvExists plugin_tmp (Ok false);
   EvDownloadFile plugin_url plugin_tmp (Ok 200%Z);
   EvUnzip plugin_tmp plugin_path (Ok tt);
   EvReadDir plugin_path (Ok [wrapping_directory]);
   EvMoveFile (item_path wrapping_directory) (tmpMovePathOf BASE plugin_id)
     (Ok tt);
   EvUnlink plugin_path (Ok tt);
   EvMoveFile (tmpMovePathOf BASE plugin_id) plugin_path (Ok tt);
   EvUnlink plugin_tmp (Ok tt);
   EvExists plugin_path (Ok true)].

(** The plugin is installed; its manifest names no entry point. *)
Definition index_lookup_script : list Event :=
  installed_script manifest_1_3_0
  ++ [EvExists plugin_path (Ok true);
      EvExists (plugin_path +:+ "/index.html") (Ok true);
      EvReadFile (plugin_path +:+ "/index.html") Utf8 (Ok "<html></html>")].

Definition preloaded_manager : ComponentManager :=
  {| mobileActiveTheme := None;
     staticServerUrl := Some "http://localhost:8080";
     thirdPartyIndexPaths :=
       PlainObject.set PlainObject.empty plugin_id
         (JS.JString "index.html") |}.

(** A manifest whose entry point climbs out of the install directory. *)
Definition escaping_parse (_ : string) : option JS.json :=
  Some (JS.JObject
          [("sn", JS.JObject [("main", JS.JString "../../secret.txt")])]).

Definition escaping_script : list Event :=
  installed_script "{}"
  ++ [EvExists plugin_path (Ok true);
      EvExists (plugin_path +:+ "/../../secret.txt") (Ok true);
      EvReadFile (plugin_path +:+ "/../../secret.txt") Utf8 (Ok "secret")].

(** A component whose identifier begins with [components], and one whose
    identifier is [__proto__]. *)
Definition extra : SNComponent :=
  {| identifier := "components-extra";
     package_info := Some {| download_url := Some plugin_url;
                             version := Some "1.0.0" |};
     isTheme := false;
     isSystemTheme := false;
     variables := [] |}.

Definition extra_manager : ComponentManager :=
  {| mobileActiveTheme := None;
     staticServerUrl := Some "http://localhost:8080";
     thirdPartyIndexPaths :=
       PlainObject.set PlainObject.empty "components-extra"
         (JS.JString "index.html") |}.

Definition proto_plugin : SNComponent :=
  {| identifier := "__proto__";
     package_info := Some {| download_url := Some plugin_url;
                             version := Some "1.0.0" |};
     isTheme := false;
     isSystemTheme := false;
     variables := [] |}.

(** A manifest whose entry point is an object, installed for the
    identifier [__proto__]. *)
Definition object_main_parse (_ : string) : option JS.json :=
  Some (JS.JObject
          [("sn",
            JS.JObject
              [("main",
                JS.JObject [(plugin_id, JS.JString "other.html")])])]).

Definition proto_installed_script : list Event :=
  [EvExists (pathForComponent BASE "__proto__") (Ok true);
   EvExists (pathForComponent BASE "__proto__" +:+ "/package.json")
     (Ok true);
   EvReadFile (pathForComponent BASE "__proto__" +:+ "/package.json") Utf8
     (Ok "{}")].

Definition proto_not_installed_script : list Event :=
  [EvExists (pathForComponent BASE "__proto__") (Ok false)].

(** Storage on which the temporary move path of the plugin is taken, and
    storage with a wrapped component whose identifier holds a slash. *)
Definition occupied_storage : FS.node :=
  FS.Dir [("docs",
     FS.Dir [("components",
                FS.Dir [(plugin_id,
                   FS.Dir [("markdown-1.3.0",
                      FS.Dir [("index.html", html)])])]);
             (plugin_id, FS.File "left over")])].

Definition nested_id : string := "org.x/editor".

Definition nested_storage : FS.node :=
  FS.Dir [("docs",
     FS.Dir [("components",
        FS.Dir [("org.x",
           FS.Dir [("editor",
              FS.Dir [("editor-1.0.0",
                 FS.Dir [("index.html", html)])])])])])].

(** A manager before [initialize]. *)
Definition fresh_manager : Server.ServedManager :=
  {| Server.manager :=
       {| mobileActiveTheme := None;
          staticServerUrl := None;
          thirdPartyIndexPaths :=
            PlainObject.set PlainObject.empty plugin_id
              (JS.JString "index.html") |};
     Server.staticServer := None |}.

(** Server collaborators that note every call; starting the server
    answers [started]. *)
Definition noting (started : Res string)
  : Server.ServerCollaborators (list string) :=
  {| Server.StaticServer_start _ := fun calls => (started, calls ++ ["start"]);
     Server.StaticServer_stop _ := fun calls => (Ok tt, calls ++ ["stop"]);
     Server.alertService_alert message :=
       fun calls => (Ok tt, calls ++ [message]);
     Server.SNLog_error e := fun calls => (Ok tt, calls ++ [e]);
     Server.super_deinit := fun calls => (Ok tt, calls ++ ["super.deinit"]) |}.

(** A Listed extension with one action, and an application that accepts
    every change and answers [response] to running an action. *)
Definition publish : ListedActions.Action :=
  {| ListedActions.verb := "post";
     ListedActions.url := "https://listed.to/publish";
     ListedActions.running := None;
     ListedActions.error := None;
     ListedActions.other_members := [("label", JS.JString "Publish")] |}.

Definition listed : ListedActions.SNActionsExtension :=
  {| ListedActions.uuid := "b6a5";
     ListedActions.actions := [Some publish; None] |}.

Definition replying (response : Res JS.value)
  : ListedActions.SheetCollaborators unit :=
  {| ListedActions.application_changeItem _ _ := fun w => (Ok tt, w);
     ListedActions.actionsManager_runAction _ := fun w => (response, w) |}.

Definition idle : ListedActions.ReloadState :=
  {| ListedActions.reloadListedExtensionUuid := None;
     ListedActions.shouldReloadListedSections := false |}.

End Scenario.

(** * Properties *)

(** ** Status codes and paths *)

Lemma status_text_three_digits (statusCode : Z) :
  (100 <= statusCode <= 999)%Z ->
  JS.startsWith (JS.String_number statusCode) "2"
  = bool_decide (200 <= statusCode <= 299)%Z.
Proof.
  intros Hrange.
  assert (Hall : forallb (fun n =>
            Bool.eqb (JS.startsWith (JS.String_number (Z.of_nat n)) "2")
                     (bool_decide (200 <= Z.of_nat n <= 299)%Z))
            (seq 100 900) = true) by (vm_compute; reflexivity).
  rewrite forallb_forall in Hall.
  specialize (Hall (Z.to_nat statusCode)).
  rewrite Z2Nat.id in Hall by lia.
  apply Bool.eqb_prop, Hall, in_seq. lia.
Qed.

Lemma status_2xx_passes (statusCode : Z) :
  (200 <= statusCode <= 299)%Z ->
  JS.startsWith (JS.String_number statusCode) "2" = true.
Proof.
  intros Hrange. rewrite status_text_three_digits by lia.
  apply bool_decide_eq_true. exact Hrange.
Qed.

Lemma prefix_length (p s : string) :
  String.prefix p s = true -> String.length p <= String.length s.
Proof.
  revert s. induction p as [|a p IH]; intros [|b s]; simpl;
    try lia; try discriminate.
  destruct (Ascii.ascii_dec a b); [|discriminate].
  intros Hp. apply IH in Hp. lia.
Qed.

Lemma length_app_string (a b : string) :
  String.length (a +:+ b) = String.length a + String.length b.
Proof. induction a; simpl; auto. Qed.

(** The temporary archive is neither the install directory nor inside it. *)
Lemma tmpLocation_outside_install (BASE identifier : string) :
  String.prefix (pathForComponent BASE identifier)
                (tmpLocationOf BASE identifier) = false.
Proof.
  destruct (String.prefix _ _) eqn:Hp; [|reflexivity].
  apply prefix_length in Hp.
  unfold pathForComponent, tmpLocationOf, COMPONENTS_PATH in Hp.
  rewrite !length_app_string in Hp. simpl in Hp. lia.
Qed.


(** ** The order of semantic versions *)

Module SemVerFacts.
Import SemVer.

Lemma seg_compare_antisym (a b : option N) :
  seg_compare b a = CompOpp (seg_compare a b).
Proof.
  destruct a as [x|], b as [y|]; simpl; try reflexivity.
  apply N.compare_antisym.
Qed.

Lemma seg_compare_eq (a b : option N) : seg_compare a b = Eq -> a = b.
Proof.
  destruct a as [x|], b as [y|]; simpl; try discriminate; try reflexivity.
  intros Hc. apply N.compare_eq in Hc. congruence.
Qed.

Lemma seg_compare_lt_trans (a b c : option N) :
  seg_compare a b = Lt -> seg_compare b c = Lt -> seg_compare a c = Lt.
Proof.
  destruct a as [x|], b as [y|], c as [z|]; simpl; try discriminate;
    try reflexivity.
  rewrite !N.compare_lt_iff. lia.
Qed.

(** Swapping the two versions swaps the verdict. *)
Lemma compare_antisym (l r : t) : compare r l = CompOpp (compare l r).
Proof.
  unfold compare.
  rewrite (seg_compare_antisym (major l) (major r)),
          (seg_compare_antisym (minor l) (minor r)),
          (seg_compare_antisym (patch l) (patch r)).
  destruct (seg_compare (major l) (major r)); simpl; try reflexivity.
  destruct (seg_compare (minor l) (minor r)); reflexivity.
Qed.

Lemma compare_refl (v : t) : compare v v = Eq.
Proof.
  pose proof (compare_antisym v v) as Hc.
  destruct (compare v v); simpl in Hc; congruence.
Qed.

Lemma compare_lt_trans (a b c : t) :
  compare a b = Lt -> compare b c = Lt -> compare a c = Lt.
Proof.
  unfold compare. intros Hab Hbc.
  destruct (seg_compare (major a) (major b)) eqn:E1; try discriminate.
  - apply seg_compare_eq in E1. rewrite E1.
    destruct (seg_compare (major b) (major c)) eqn:E2; try discriminate;
      [|reflexivity].
    destruct (seg_compare (minor a) (minor b)) eqn:E3; try discriminate.
    + apply seg_compare_eq in E3. rewrite E3.
      destruct (seg_compare (minor b) (minor c)) eqn:E4; try discriminate;
        [|reflexivity].
      exact (seg_compare_lt_trans _ _ _ Hab Hbc).
    + destruct (seg_compare (minor b) (minor c)) eqn:E4; try discriminate.
      * apply seg_compare_eq in E4. rewrite <- E4, E3. reflexivity.
      * rewrite (seg_compare_lt_trans _ _ _ E3 E4). reflexivity.
  - destruct (seg_compare (major b) (major c)) eqn:E2; try discriminate.
    + apply seg_compare_eq in E2. rewrite <- E2, E1. reflexivity.
    + rewrite (seg_compare_lt_trans _ _ _ E1 E2). reflexivity.
Qed.

End SemVerFacts.

(** ** The download pipeline, for any collaborators *)

Section Pipeline.

Context {W : Type} (G : Collaborators W).
Variable Features : list FeatureDescription.
Variable FeatureChecksums : gmap string FeatureChecksum.
Variable BASE_DOCUMENTS_PATH : string.

(** One step of a run: case analysis on the answer of the next call to a
    collaborator, or on the next test. *)
Ltac answer_in H :=
  match type of H with
  | context [@RNFS_exists W G ?p ?w] =>
      destruct (@RNFS_exists W G p w) as [[[|]|?] ?] eqn:?
  | context [@RNFS_unlink W G ?p ?w] =>
      destruct (@RNFS_unlink W G p w) as [[[]|?] ?] eqn:?
  | context [@RNFS_downloadFile W G ?u ?p ?w] =>
      destruct (@RNFS_downloadFile W G u p w) as [[?|?] ?] eqn:?
  | context [@RNFS_readFile W G ?p ?e ?w] =>
      destruct (@RNFS_readFile W G p e w) as [[?|?] ?] eqn:?
  | context [@RNFS_readDir W G ?p ?w] =>
      destruct (@RNFS_readDir W G p w) as [[[|? [|? ?]]|?] ?] eqn:?
  | context [@RNFS_moveFile W G ?a ?b ?w] =>
      destruct (@RNFS_moveFile W G a b w) as [[[]|?] ?] eqn:?
  | context [@unzip W G ?a ?b ?w] =>
      destruct (@unzip W G a b w) as [[[]|?] ?] eqn:?
  | context [@crypto_sha256 W G ?t ?w] =>
      destruct (@crypto_sha256 W G t w) as [[?|?] ?] eqn:?
  | context [if ?b then _ else _] => destruct b eqn:?
  end; simpl in H.

Ltac unfold_pipeline H :=
  unfold downloadComponentOffline, performDownloadComponent,
    passesChecksumValidation, normalizeLayout, isComponentThirdParty,
    try_catch, bind, ret, throw in H.

(** Membership of an event in a log that is known in full. *)
Ltac in_log :=
  repeat match goal with
         | H : In _ (_ :: _) |- _ => destruct H as [H | H]
         | H : In _ [] |- _ => destruct H
         | H : @eq Event _ _ |- _ => first [discriminate H | injection H as ?]
         | H : @eq (Res _) _ _ |- _ => first [discriminate H | injection H as ?]
         end; subst.

Ltac tests_to_facts :=
  repeat match goal with
         | Hb : negb _ = true |- _ => apply Bool.negb_true_iff in Hb
         | Hb : negb _ = false |- _ => apply Bool.negb_false_iff in Hb
         | Hd : bool_decide _ = true |- _ => apply bool_decide_eq_true in Hd
         end.

(** A download observed from an empty log. *)
Abbreviation recorded_download component w :=
  (downloadComponentOffline (G := recording G) Features FeatureChecksums
     BASE_DOCUMENTS_PATH component (w, [])).

(** C1: for an identifier of the registry, when the download answered a
    2xx status and the checksum computed for the fetched archive is not
    the registry's (or the registry has none), [downloadComponentOffline]
    returns [ChecksumMismatch]; no extraction call is made, and the only
    path written is the temporary archive, which lies outside the install
    directory. *)
Theorem checksum_mismatch_blocks_extraction
  (component : SNComponent) (w w' : W) r log
  (feature : FeatureDescription) (url zipContents checksum : string)
  (statusCode : Z) :
  let id := identifier component in
  let tmpLocation := tmpLocationOf BASE_DOCUMENTS_PATH id in
  nativeFeatureForIdentifier Features id = Some feature ->
  recorded_download component w = (r, (w', log)) ->
  In (EvDownloadFile url tmpLocation (Ok statusCode)) log ->
  (200 <= statusCode <= 299)%Z ->
  In (EvSha256 zipContents (Ok checksum)) log ->
  JS.truthy_string (desiredChecksumOf FeatureChecksums id) = false
  \/ desiredChecksumOf FeatureChecksums id <> Some checksum ->
  r = Ok (Some ChecksumMismatch)
  /\ Forall (fun ev => is_extraction_call ev = false) log
  /\ Forall (fun ev => forall p, In p (written_paths ev) -> p = tmpLocation)
            log
  /\ String.prefix (pathForComponent BASE_DOCUMENTS_PATH id) tmpLocation
     = false.
Proof.
  intros id tmpLocation Hnat Hrun Hdl Hstatus Hsha Hbad.
  subst id tmpLocation.
  unfold_pipeline Hrun. rewrite Hnat in Hrun. simpl in Hrun.
  repeat answer_in Hrun.
  all: inversion Hrun; subst; clear Hrun.
  all: in_log.
  all: tests_to_facts.
  all: try (destruct Hbad; congruence).
  all: split; [reflexivity|].
  all: split; [repeat constructor|].
  all: split; [|apply tmpLocation_outside_install].
  all: repeat constructor.
  all: simpl; intros p; intuition congruence.
Qed.

(** C2: for an identifier absent from the registry,
    [downloadComponentOffline] makes no call of the checksum verification
    and never returns [ChecksumMismatch], whatever the collaborators
    answer. *)
Theorem third_party_download_skips_checksum
  (component : SNComponent) (w w' : W) r log :
  nativeFeatureForIdentifier Features (identifier component) = None ->
  recorded_download component w = (r, (w', log)) ->
  r <> Ok (Some ChecksumMismatch)
  /\ Forall (fun ev => is_checksum_call ev = false) log.
Proof.
  intros Hnat Hrun. unfold_pipeline Hrun.
  rewrite Hnat in Hrun. simpl in Hrun.
  repeat answer_in Hrun.
  all: inversion Hrun; subst; split; [discriminate | repeat constructor].
Qed.

(** C3, as the code has it: with a resolvable download URL, an exception
    raised inside [performDownloadComponent] (download, verification,
    extraction, normalization) is caught and returned as [Unknown]; the
    only exception [downloadComponentOffline] lets through is one of the
    existence check that follows a successful pipeline. *)
Theorem download_catches_pipeline_exceptions
  (component : SNComponent) (url : string) (w : W) :
  let id := identifier component in
  downloadUrlOf Features component = Some url ->
  url <> "" ->
  (forall e w1,
      performDownloadComponent Features FeatureChecksums
        BASE_DOCUMENTS_PATH id url w = (Threw e, w1) ->
      downloadComponentOffline Features FeatureChecksums
        BASE_DOCUMENTS_PATH component w = (Ok (Some Unknown), w1))
  /\ (forall e w',
      downloadComponentOffline Features FeatureChecksums
        BASE_DOCUMENTS_PATH component w = (Threw e, w') ->
      exists w1,
        performDownloadComponent Features FeatureChecksums
          BASE_DOCUMENTS_PATH id url w = (Ok None, w1)
        /\ RNFS_exists (pathForComponent BASE_DOCUMENTS_PATH id) w1
           = (Threw e, w')).
Proof.
  intros id Hurl Hne. subst id.
  assert (Htruthy : JS.truthy_string (Some url) = true).
  { simpl. destruct (String.eqb_spec url ""); [congruence | reflexivity]. }
  unfold downloadComponentOffline, try_catch, bind, ret, throw.
  rewrite Hurl, Htruthy. simpl.
  destruct (performDownloadComponent _ _ _ _ _ w) as [[[err|]|e0] w0].
  - split; [discriminate|]. intros e w' Hrun. discriminate.
  - split; [discriminate|]. intros e w' Hrun. exists w0. split; [reflexivity|].
    destruct (RNFS_exists _ w0) as [[[|]|e1] w2]; simpl in Hrun;
      try discriminate.
    injection Hrun as <- <-. reflexivity.
  - split; [|discriminate].
    intros e w1 Hrun. injection Hrun as <- <-. reflexivity.
Qed.

(** C4: when the status code of the download is not in the 2xx class --
    a three-digit HTTP status code outside 200..299 or, as the code
    tests it, any status code whose decimal text does not begin with
    [2] -- [downloadComponentOffline] returns [FailedDownload], makes no
    call of the checksum verification or of the extraction, and writes
    no path but the temporary archive, so that nothing is installed. *)
Theorem failed_download_stops_pipeline
  (component : SNComponent) (w w' : W) r log (url : string)
  (statusCode : Z) :
  let tmpLocation :=
    tmpLocationOf BASE_DOCUMENTS_PATH (identifier component) in
  recorded_download component w = (r, (w', log)) ->
  In (EvDownloadFile url tmpLocation (Ok statusCode)) log ->
  JS.startsWith (JS.String_number statusCode) "2" = false
  \/ ((100 <= statusCode <= 999)%Z /\ ~ (200 <= statusCode <= 299)%Z) ->
  r = Ok (Some FailedDownload)
  /\ Forall (fun ev => is_checksum_call ev = false) log
  /\ Forall (fun ev => is_extraction_call ev = false) log
  /\ Forall (fun ev => forall p, In p (written_paths ev) -> p = tmpLocation)
            log.
Proof.
  intros tmpLocation Hrun Hdl Hstatus. subst tmpLocation.
  assert (Hfail : JS.startsWith (JS.String_number statusCode) "2" = false).
  { destruct Hstatus as [Hs | [Hrange Hout]]; [exact Hs|].
    rewrite status_text_three_digits by exact Hrange.
    apply bool_decide_eq_false. exact Hout. }
  clear Hstatus. unfold_pipeline Hrun.
  repeat answer_in Hrun.
  all: inversion Hrun; subst; clear Hrun.
  all: in_log.
  all: tests_to_facts.
  all: try congruence.
  all: split; [reflexivity|].
  all: split; [repeat constructor|].
  all: split; [repeat constructor|].
  all: repeat constructor.
  all: simpl; intros p; intuition congruence.
Qed.

End Pipeline.

(** ** Installed manifests and the decision to download *)

Section Manifest.

Context {W : Type} (G : Collaborators W).
Variable Features : list FeatureDescription.
Variable BASE_DOCUMENTS_PATH : string.
Variable JSON_parse : string -> option JS.json.

(** C5: [doesComponentNeedDownload] throws when no download URL can be
    resolved; otherwise it answers [true] exactly when there is no
    installed manifest or the latest version (the registry's, when it has
    one, else the plugin's own) is strictly greater than the installed
    one in the major.minor.patch order. Installed 1.2.0 against latest
    1.3.0 needs a download; installed 1.3.0 against latest 1.3.0, or
    against any latest version that is not greater, does not. *)
Theorem download_needed_exactly_when_newer
  (component : SNComponent) (w : W) :
  let id := identifier component in
  let run := doesComponentNeedDownload Features BASE_DOCUMENTS_PATH
               JSON_parse component in
  let installed manifest w' :=
    getDownloadedComponentPackageJsonFile BASE_DOCUMENTS_PATH JSON_parse
      id w = (Ok manifest, w') in
  let latest := JS.JString <$> latestVersionOf Features component in
  let older manifest :=
    SemVer.compare (SemVer.of_value (JS.get manifest "version"))
                   (SemVer.of_value latest) = Lt in
  (JS.truthy_string (downloadUrlOf Features component) = false ->
   run w
   = (Threw "Attempting to download component with no download url", w))
  /\ (JS.truthy_string (downloadUrlOf Features component) = true ->
      forall manifest w',
        installed manifest w' ->
        exists needed,
          run w = (Ok needed, w')
          /\ (needed = true <-> JS.truthy manifest = false \/ older manifest)
          /\ (JS.truthy manifest = true ->
              SemVer.compare (SemVer.of_value latest)
                (SemVer.of_value (JS.get manifest "version")) <> Gt ->
              needed = false)
          /\ (manifest = Some (JS.JObject [("version", JS.JString "1.2.0")]) ->
              latest = Some (JS.JString "1.3.0") -> needed = true)
          /\ (manifest = Some (JS.JObject [("version", JS.JString "1.3.0")]) ->
              latest = Some (JS.JString "1.3.0") -> needed = false))
  /\ (forall feature v,
        nativeFeatureForIdentifier Features id = Some feature ->
        feature_version feature = Some v ->
        v <> "" ->
        latestVersionOf Features component = Some v).
Proof.
  intros id run installed latest older.
  subst id run installed latest older.
  unfold doesComponentNeedDownload, bind, ret, throw.
  split; [|split].
  - intros Hurl. rewrite Hurl. reflexivity.
  - intros Hurl manifest w' Hm. rewrite Hurl. simpl. rewrite Hm. simpl.
    eexists. split; [reflexivity|].
    unfold isRightVersionGreaterThanLeft.
    set (left := SemVer.of_value (JS.get manifest "version")).
    set (right := SemVer.of_value _).
    split; [|split; [|split]].
    + rewrite Bool.orb_true_iff, Bool.negb_true_iff.
      destruct (SemVer.compare left right); intuition congruence.
    + intros Htruthy Hle. rewrite Htruthy. simpl.
      rewrite SemVerFacts.compare_antisym in Hle.
      destruct (SemVer.compare left right); simpl in Hle; congruence.
    + intros -> Hlatest. subst left right. rewrite Hlatest. reflexivity.
    + intros -> Hlatest. subst left right. rewrite Hlatest. reflexivity.
  - intros feature v Hnat Hv Hne. unfold latestVersionOf.
    rewrite Hnat. simpl. rewrite Hv. unfold JS.or_string. simpl.
    destruct (String.eqb_spec v ""); [congruence | reflexivity].
Qed.

(** C10: [getFile] returns [undefined], without raising, whenever the
    gateway reports that the install directory or the requested file does
    not exist; then [getDownloadedComponentPackageJsonFile] returns
    [undefined] too, and [doesComponentNeedDownload] takes the manifest
    as absent: a downloadable component needs its download. *)
Theorem missing_file_reads_as_undefined
  (id relativePath : string) (w w' : W) :
  (reported_absent BASE_DOCUMENTS_PATH id relativePath w w' ->
   getFile BASE_DOCUMENTS_PATH id relativePath w = (Ok None, w'))
  /\ (reported_absent BASE_DOCUMENTS_PATH id "package.json" w w' ->
      getDownloadedComponentPackageJsonFile BASE_DOCUMENTS_PATH JSON_parse
        id w = (Ok None, w')
      /\ forall component,
           identifier component = id ->
           isComponentDownloadable Features component = true ->
           doesComponentNeedDownload Features BASE_DOCUMENTS_PATH JSON_parse
             component w = (Ok true, w')).
Proof.
  assert (Hget : forall rel,
             reported_absent BASE_DOCUMENTS_PATH id rel w w' ->
             getFile BASE_DOCUMENTS_PATH id rel w = (Ok None, w')).
  { intros rel Habsent. unfold getFile, bind, ret.
    destruct Habsent as [Hdir | (w1 & Hdir & Hfile)].
    - rewrite Hdir. reflexivity.
    - rewrite Hdir. simpl. rewrite Hfile. reflexivity. }
  split; [apply Hget|].
  intros Habsent.
  assert (Hmanifest :
            getDownloadedComponentPackageJsonFile BASE_DOCUMENTS_PATH
              JSON_parse id w = (Ok None, w')).
  { unfold getDownloadedComponentPackageJsonFile, bind, ret.
    rewrite (Hget _ Habsent). reflexivity. }
  split; [exact Hmanifest|].
  intros component <- Hurl.
  unfold doesComponentNeedDownload, bind, ret, throw.
  unfold isComponentDownloadable in Hurl. rewrite Hurl. simpl.
  rewrite Hmanifest. reflexivity.
Qed.

End Manifest.

(** ** URL-safe Base64 round trip *)

Module Base64Facts.
Import Base64.

Lemma sextet_of_char_of_sextet (s : sextet) :
  sextet_of_char (char_of_sextet s) = Some s.
Proof.
  destruct s as [[[[[b5 b4] b3] b2] b1] b0].
  destruct b5, b4, b3, b2, b1, b0; reflexivity.
Qed.

Lemma decode_encodeURI_bounded (n : nat) :
  forall s : string, String.length s < n -> decode (encodeURI s) = Some s.
Proof.
  induction n as [|n IH]; intros s Hlen; [lia|].
  destruct s as [|x [|y [|z rest]]].
  - reflexivity.
  - destruct x as [x0 x1 x2 x3 x4 x5 x6 x7].
    cbn [encodeURI decode bits].
    rewrite !sextet_of_char_of_sextet. reflexivity.
  - destruct x as [x0 x1 x2 x3 x4 x5 x6 x7], y as [y0 y1 y2 y3 y4 y5 y6 y7].
    cbn [encodeURI decode bits].
    rewrite !sextet_of_char_of_sextet. reflexivity.
  - destruct x as [x0 x1 x2 x3 x4 x5 x6 x7], y as [y0 y1 y2 y3 y4 y5 y6 y7],
      z as [z0 z1 z2 z3 z4 z5 z6 z7].
    cbn [encodeURI decode bits].
    rewrite !sextet_of_char_of_sextet.
    rewrite IH by (simpl in Hlen; lia). reflexivity.
Qed.

(** Decoding undoes the encoding. *)
Lemma decode_encodeURI (s : string) : decode (encodeURI s) = Some s.
Proof. apply (decode_encodeURI_bounded (S (String.length s))). lia. Qed.

(** No character of the alphabet is a colon. *)
Lemma char_of_sextet_not_colon (s : sextet) :
  Ascii.eqb (char_of_sextet s) ":" = false.
Proof.
  destruct s as [[[[[b5 b4] b3] b2] b1] b0].
  destruct b5, b4, b3, b2, b1, b0; reflexivity.
Qed.

Lemma encodeURI_no_colon_bounded (n : nat) :
  forall s : string,
    String.length s < n -> JS.has_char ":" (encodeURI s) = false.
Proof.
  induction n as [|n IH]; intros s Hlen; [lia|].
  destruct s as [|x [|y [|z rest]]].
  - reflexivity.
  - destruct x as [x0 x1 x2 x3 x4 x5 x6 x7].
    cbn [encodeURI bits JS.has_char].
    rewrite !char_of_sextet_not_colon. reflexivity.
  - destruct x as [x0 x1 x2 x3 x4 x5 x6 x7], y as [y0 y1 y2 y3 y4 y5 y6 y7].
    cbn [encodeURI bits JS.has_char].
    rewrite !char_of_sextet_not_colon. reflexivity.
  - destruct x as [x0 x1 x2 x3 x4 x5 x6 x7], y as [y0 y1 y2 y3 y4 y5 y6 y7],
      z as [z0 z1 z2 z3 z4 z5 z6 z7].
    cbn [encodeURI bits JS.has_char].
    rewrite !char_of_sextet_not_colon.
    rewrite IH by (simpl in Hlen; lia). reflexivity.
Qed.

Lemma encodeURI_no_colon (s : string) :
  JS.has_char ":" (encodeURI s) = false.
Proof. apply (encodeURI_no_colon_bounded (S (String.length s))). lia. Qed.

End Base64Facts.

(** ** Occurrences of one text in another *)

Lemma prefix_trans (a b c : string) :
  String.prefix a b = true -> String.prefix b c = true ->
  String.prefix a c = true.
Proof.
  revert b c. induction a as [|x a IH]; intros b c Hab Hbc;
    [destruct c; reflexivity|].
  destruct b as [|y b]; [discriminate|].
  destruct c as [|z c]; [discriminate|].
  simpl in *.
  destruct (Ascii.ascii_dec x y) as [->|]; [|discriminate].
  destruct (Ascii.ascii_dec y z) as [->|]; [|discriminate].
  eapply IH; eassumption.
Qed.

Lemma includes_prefix (s part whole : string) :
  String.prefix part whole = true ->
  JS.includes s whole = true -> JS.includes s part = true.
Proof.
  intros Hp. induction s as [|x s IH]; cbn [JS.includes].
  - rewrite !Bool.orb_false_r. intros Hw.
    exact (prefix_trans _ _ _ Hp Hw).
  - intros Hw. apply Bool.orb_true_iff in Hw as [Hw | Hw].
    + rewrite (prefix_trans _ _ _ Hp Hw). reflexivity.
    + rewrite (IH Hw). apply Bool.orb_true_r.
Qed.

Lemma prefix_has_char (c : ascii) (part s : string) :
  String.prefix part s = true ->
  JS.has_char c part = true -> JS.has_char c s = true.
Proof.
  revert s. induction part as [|x part IH]; intros s Hp Hc; [discriminate|].
  destruct s as [|y s]; [discriminate|]. simpl in *.
  destruct (Ascii.ascii_dec x y) as [->|]; [|discriminate].
  destruct (Ascii.eqb y c); [reflexivity|]. simpl in *.
  eapply IH; eassumption.
Qed.

Lemma includes_has_char (c : ascii) (s part : string) :
  JS.has_char c part = true ->
  JS.has_char c s = false -> JS.includes s part = false.
Proof.
  intros Hpart. induction s as [|x s IH]; cbn [JS.includes]; intros Hs.
  - rewrite Bool.orb_false_r.
    destruct (String.prefix part "") eqn:Hp; [|reflexivity].
    rewrite (prefix_has_char c part "" Hp Hpart) in Hs. discriminate.
  - pose proof Hs as Hs'. simpl in Hs'.
    apply Bool.orb_false_iff in Hs' as [Hx Hs'].
    rewrite (IH Hs'), Bool.orb_false_r.
    destruct (String.prefix part (String x s)) eqn:Hp; [|reflexivity].
    rewrite (prefix_has_char c part (String x s) Hp Hpart) in Hs.
    discriminate.
Qed.

(** A [data:] URL with a colon-free payload holds no [http:]. *)
Lemma data_url_holds_no_http (payload : string) :
  JS.has_char ":" payload = false ->
  JS.includes ("data:text/css;base64," +:+ payload) "http:" = false.
Proof.
  intros Hpayload.
  pose proof (includes_has_char ":" payload "http:" eq_refl Hpayload) as Hin.
  cbn. exact Hin.
Qed.

(** ** URL resolution *)

Section Urls.

Variable Features : list FeatureDescription.
Variable BASE_DOCUMENTS_PATH : string.
Variable objectToCss : ThemeVariables -> string.
Variable super_urlForComponent : SNComponent -> Res string.
Variable Object_prototype : string -> option JS.json.
Variable Array_prototype : string -> option JS.json.

(** C6: for a system theme, [urlForComponent] returns
    [data:text/css;base64,<payload>] where the payload decodes to the
    stylesheet text of the theme's variables. The URL is the same whatever
    the manager holds (server URL, cached paths), and it contains no
    server URL that begins with [http:]. *)
Theorem system_theme_url_is_inline_stylesheet
  (this : ComponentManager) (component : SNComponent) :
  isTheme component = true ->
  isSystemTheme component = true ->
  exists payload,
    urlForComponent Features BASE_DOCUMENTS_PATH objectToCss
      super_urlForComponent Object_prototype Array_prototype this component
    = Ok ("data:text/css;base64," +:+ payload)
    /\ Base64.decode payload = Some (objectToCss (variables component))
    /\ (forall other : ComponentManager,
          urlForComponent Features BASE_DOCUMENTS_PATH objectToCss
            super_urlForComponent Object_prototype Array_prototype other
            component
          = Ok ("data:text/css;base64," +:+ payload))
    /\ (forall server,
          staticServerUrl this = Some server ->
          String.prefix "http:" server = true ->
          JS.includes ("data:text/css;base64," +:+ payload) server = false).
Proof.
  intros Htheme Hsystem.
  exists (Base64.encodeURI (objectToCss (variables component))).
  unfold urlForComponent. rewrite Htheme, Hsystem. simpl andb. cbv iota.
  split; [reflexivity|].
  split; [apply Base64Facts.decode_encodeURI|].
  split; [reflexivity|].
  intros server _ Hhttp.
  destruct (JS.includes _ server) eqn:Hin; [|reflexivity].
  apply (includes_prefix _ _ _ Hhttp) in Hin.
  rewrite data_url_holds_no_http in Hin
    by apply Base64Facts.encodeURI_no_colon.
  discriminate.
Qed.

(** C7, as the code has it: for a third-party identifier that is no own
    key of the cache and names nothing that the cache object inherits
    through its prototype chain (a member of [Object.prototype] such as
    [constructor], or [__proto__]), [getIndexFileRelativePath] returns
    [undefined]; the exception is raised by [urlForComponent], for a
    downloadable component that is not a system theme. *)
Theorem unpreloaded_index_path_throws_in_urlForComponent
  (this : ComponentManager) (component : SNComponent) :
  let id := identifier component in
  nativeFeatureForIdentifier Features id = None ->
  PlainObject.own (thirdPartyIndexPaths this) !! id = None ->
  PlainObject.inherited Object_prototype Array_prototype
    (thirdPartyIndexPaths this) id = None ->
  getIndexFileRelativePath Features Object_prototype Array_prototype this id
  = None
  /\ (isTheme component && isSystemTheme component = false ->
      isComponentDownloadable Features component = true ->
      urlForComponent Features BASE_DOCUMENTS_PATH objectToCss
        super_urlForComponent Object_prototype Array_prototype this
        component
      = Threw "Third party index path was not preloaded").
Proof.
  intros id Hnat Hcache Hproto. subst id.
  assert (Hpath : getIndexFileRelativePath Features Object_prototype
                    Array_prototype this (identifier component) = None).
  { unfold getIndexFileRelativePath, cachedIndexPath, PlainObject.get.
    rewrite Hnat, Hcache. exact Hproto. }
  split; [exact Hpath|].
  intros Htheme Hdl. unfold urlForComponent.
  rewrite Htheme, Hdl, Hpath. reflexivity.
Qed.

End Urls.

(** ** The action sheet *)

(** C9, as the code has it: for a note that is trashed and not protected,
    the common-actions section is pin, archive, lock, protect, share,
    Restore, Delete permanently, in that order. Restore and Delete
    permanently stand where Move to Trash would, and are the only
    trash-related actions; pin, archive, lock, protect and share remain. *)
Theorem trashed_note_common_actions (note : ActionSheet.SNNote) :
  ActionSheet.protected note = false ->
  ActionSheet.trashed note = true ->
  let section := ActionSheet.commonSection note in
  ActionSheet.section_key section = ActionSheet.CommonActions
  /\ ActionSheet.actions section
     = [ActionSheet.pinAction note; ActionSheet.archiveAction note;
        ActionSheet.lockAction note; ActionSheet.protectAction note;
        ActionSheet.shareAction note;
        ActionSheet.restoreAction; ActionSheet.deleteAction]
  /\ List.map ActionSheet.action_key (ActionSheet.actions section)
     = [ActionSheet.Pin; ActionSheet.Archive; ActionSheet.Lock;
        ActionSheet.Protect; ActionSheet.ShareAction;
        ActionSheet.Restore; ActionSheet.DeletePermanently]
  /\ List.map ActionSheet.action_text
       (List.skipn 5 (ActionSheet.actions section))
     = ["Restore"; "Delete permanently"]
  /\ ~ In ActionSheet.Trash
       (List.map ActionSheet.action_key (ActionSheet.actions section)).
Proof.
  intros Hprotected Htrashed section. subst section.
  unfold ActionSheet.commonSection. rewrite Hprotected, Htrashed. simpl.
  repeat split. intros Hin.
  repeat destruct Hin as [Hin | Hin]; try discriminate. exact Hin.
Qed.

(** ** The tree filesystem *)

Module FSFacts.
Import FS.

(** *** Path texts *)

Lemma split_on_not_nil (c : ascii) (s : string) : JS.split_on c s <> [].
Proof.
  destruct s as [|x s]; simpl; [discriminate|].
  destruct (Ascii.eqb x c); [discriminate|].
  destruct (JS.split_on c s); discriminate.
Qed.

Lemma split_on_app (c : ascii) (a b : string) :
  JS.split_on c (a +:+ String c b) = JS.split_on c a ++ JS.split_on c b.
Proof.
  induction a as [|x a IH]; simpl.
  - rewrite Ascii.eqb_refl. reflexivity.
  - destruct (Ascii.eqb x c); [rewrite IH; reflexivity|].
    rewrite IH. pose proof (split_on_not_nil c a) as Hne.
    destruct (JS.split_on c a); [congruence | reflexivity].
Qed.

Lemma parse_app (a b : string) :
  parse (a +:+ "/" +:+ b) = parse a ++ parse b.
Proof.
  unfold parse. change (a +:+ "/" +:+ b) with (a +:+ String "/" b).
  rewrite split_on_app. apply List.filter_app.
Qed.

Lemma split_on_absent (c : ascii) (s : string) :
  JS.has_char c s = false -> JS.split_on c s = [s].
Proof.
  induction s as [|x s IH]; simpl; [reflexivity|].
  intros Hc. apply Bool.orb_false_iff in Hc as [Hx Hs].
  rewrite Hx, IH by exact Hs. reflexivity.
Qed.

Lemma parse_name (s : string) : is_name s = true -> parse s = [s].
Proof.
  unfold is_name, parse. intros Hn.
  apply andb_prop in Hn as [Hne Hs].
  apply Bool.negb_true_iff in Hs.
  rewrite split_on_absent by exact Hs. simpl. rewrite Hne. reflexivity.
Qed.

Lemma parse_pathForComponent (BASE id : string) :
  is_name id = true ->
  parse (pathForComponent BASE id) = parse BASE ++ ["components"; id].
Proof.
  intros Hid. unfold pathForComponent, COMPONENTS_PATH.
  change ("/components" +:+ "/" +:+ id) with ("/" +:+ "components" +:+ "/" +:+ id).
  rewrite !parse_app, (parse_name id Hid). reflexivity.
Qed.

Lemma parse_tmpMovePathOf (BASE id : string) :
  is_name id = true ->
  parse (tmpMovePathOf BASE id) = parse BASE ++ [id].
Proof.
  intros Hid. unfold tmpMovePathOf.
  rewrite parse_app, (parse_name id Hid). reflexivity.
Qed.

(** *** Directory entries *)

Lemma assoc_set_entry_same name n l :
  JS.assoc name (set_entry name n l) = Some n.
Proof.
  induction l as [|[k v] l IH]; simpl.
  - rewrite String.eqb_refl. reflexivity.
  - destruct (String.eqb k name) eqn:E; simpl.
    + rewrite String.eqb_refl. reflexivity.
    + rewrite E. exact IH.
Qed.

Lemma assoc_set_entry_other name name' n l :
  name <> name' ->
  JS.assoc name' (set_entry name n l) = JS.assoc name' l.
Proof.
  intros Hne. induction l as [|[k v] l IH]; simpl.
  - apply String.eqb_neq in Hne. rewrite Hne. reflexivity.
  - destruct (String.eqb k name) eqn:E; simpl.
    + apply String.eqb_eq in E. subst k.
      apply String.eqb_neq in Hne. rewrite Hne. reflexivity.
    + rewrite IH. reflexivity.
Qed.

Lemma assoc_del_entry_same name l : JS.assoc name (del_entry name l) = None.
Proof.
  induction l as [|[k v] l IH]; simpl; [reflexivity|].
  destruct (String.eqb k name) eqn:E; simpl; [exact IH|].
  rewrite E. exact IH.
Qed.

Lemma assoc_del_entry_other name name' l :
  name <> name' ->
  JS.assoc name' (del_entry name l) = JS.assoc name' l.
Proof.
  intros Hne. induction l as [|[k v] l IH]; simpl; [reflexivity|].
  destruct (String.eqb k name) eqn:E; simpl.
  - apply String.eqb_eq in E. subst k.
    apply String.eqb_neq in Hne. rewrite Hne. exact IH.
  - rewrite IH. reflexivity.
Qed.

(** *** Lookup after an update of the tree *)

Lemma remove_cons name p entries :
  remove (name :: p) (Dir entries)
  = match p with
    | [] => Dir (del_entry name entries)
    | _ :: _ =>
        match JS.assoc name entries with
        | Some child => Dir (set_entry name (remove p child) entries)
        | None => Dir entries
        end
    end.
Proof. destruct p; reflexivity. Qed.

Lemma insert_cons name p new entries :
  insert (name :: p) new (Dir entries)
  = match p with
    | [] => Some (Dir (set_entry name new entries))
    | _ :: _ =>
        match JS.assoc name entries with
        | Some child =>
            match insert p new child with
            | Some child' => Some (Dir (set_entry name child' entries))
            | None => None
            end
        | None => None
        end
    end.
Proof. destruct p; reflexivity. Qed.

Lemma remove_cons_deep name p entries :
  p <> [] ->
  remove (name :: p) (Dir entries)
  = match JS.assoc name entries with
    | Some child => Dir (set_entry name (remove p child) entries)
    | None => Dir entries
    end.
Proof. destruct p; [congruence | reflexivity]. Qed.

Lemma insert_cons_deep name p new entries :
  p <> [] ->
  insert (name :: p) new (Dir entries)
  = match JS.assoc name entries with
    | Some child =>
        match insert p new child with
        | Some child' => Some (Dir (set_entry name child' entries))
        | None => None
        end
    | None => None
    end.
Proof. destruct p; [congruence | reflexivity]. Qed.

Lemma app_cons_not_nil {A} (c : list A) x p : c ++ x :: p <> [].
Proof. destruct c; discriminate. Qed.

Lemma lookup_app p q root :
  lookup (p ++ q) root = lookup p root ≫= lookup q.
Proof.
  revert root. induction p as [|name p IH]; intros root; simpl; [reflexivity|].
  destruct root as [|entries]; [reflexivity|].
  destruct (JS.assoc name entries); [apply IH | reflexivity].
Qed.

Lemma lookup_insert_same p new root root' :
  insert p new root = Some root' -> lookup p root' = Some new.
Proof.
  revert root root'. induction p as [|name p IH]; intros root root' Hins.
  - simpl in Hins. injection Hins as <-. reflexivity.
  - destruct root as [|entries]; [destruct p; discriminate|].
    rewrite insert_cons in Hins. destruct p as [|name' p].
    + injection Hins as <-. simpl. rewrite assoc_set_entry_same. reflexivity.
    + destruct (JS.assoc name entries) as [child|]; [|discriminate].
      destruct (insert (name' :: p) new child) as [child'|] eqn:Hc;
        [|discriminate].
      injection Hins as <-.
      change (lookup (name :: name' :: p) (Dir (set_entry name child' entries)))
        with (match JS.assoc name (set_entry name child' entries) with
              | Some c => lookup (name' :: p) c
              | None => None
              end).
      rewrite assoc_set_entry_same. eapply IH, Hc.
Qed.

Lemma insert_under_directory p name new root entries :
  lookup p root = Some (Dir entries) ->
  exists root', insert (p ++ [name]) new root = Some root'.
Proof.
  revert root. induction p as [|a p IH]; intros root Hdir.
  - simpl in Hdir. injection Hdir as ->. simpl. eauto.
  - destruct root as [|es]; [discriminate|]. simpl in Hdir.
    destruct (JS.assoc a es) as [child|] eqn:Ha; [|discriminate].
    destruct (IH child Hdir) as [child' Hc].
    change ((a :: p) ++ [name]) with (a :: (p ++ [name])).
    rewrite insert_cons_deep, Ha, Hc by apply app_cons_not_nil. eauto.
Qed.

Lemma lookup_remove_same p root :
  p <> [] -> lookup p (remove p root) = None.
Proof.
  revert root. induction p as [|name p IH]; intros root Hne; [congruence|].
  destruct root as [|entries]; [destruct p; reflexivity|].
  rewrite remove_cons. destruct p as [|name' p].
  - simpl. rewrite assoc_del_entry_same. reflexivity.
  - destruct (JS.assoc name entries) as [child|] eqn:Ha.
    + change (lookup (name :: name' :: p)
                (Dir (set_entry name (remove (name' :: p) child) entries)))
        with (match JS.assoc name
                      (set_entry name (remove (name' :: p) child) entries) with
              | Some c => lookup (name' :: p) c
              | None => None
              end).
      rewrite assoc_set_entry_same. apply IH. discriminate.
    + simpl. rewrite Ha. reflexivity.
Qed.

(** Two paths that part ways after a common stem [c]. *)
Lemma lookup_insert_diverging c x y p q new root root' :
  x <> y ->
  insert (c ++ x :: p) new root = Some root' ->
  lookup (c ++ y :: q) root' = lookup (c ++ y :: q) root.
Proof.
  intros Hxy. revert root root'.
  induction c as [|a c IH]; intros root root' Hins.
  - simpl app in *. destruct root as [|entries]; [destruct p; discriminate|].
    rewrite insert_cons in Hins.
    assert (exists n, root' = Dir (set_entry x n entries)) as [n ->].
    { destruct p; [injection Hins as <-; eauto|].
      destruct (JS.assoc x entries); [|discriminate].
      destruct (insert _ _ _); [|discriminate].
      injection Hins as <-; eauto. }
    simpl. rewrite assoc_set_entry_other by exact Hxy. reflexivity.
  - change ((a :: c) ++ x :: p) with (a :: (c ++ x :: p)) in Hins.
    change ((a :: c) ++ y :: q) with (a :: (c ++ y :: q)).
    destruct root as [|entries].
    { destruct (c ++ x :: p); discriminate. }
    rewrite insert_cons_deep in Hins by apply app_cons_not_nil.
    destruct (JS.assoc a entries) as [child|] eqn:Ha; [|discriminate].
    destruct (insert (c ++ x :: p) new child) as [child'|] eqn:Hc;
      [|discriminate].
    injection Hins as <-. simpl. rewrite assoc_set_entry_same, Ha.
    apply (IH _ _ Hc).
Qed.

Lemma lookup_remove_diverging c x y p q root :
  x <> y ->
  lookup (c ++ y :: q) (remove (c ++ x :: p) root)
  = lookup (c ++ y :: q) root.
Proof.
  intros Hxy. revert root.
  induction c as [|a c IH]; intros root.
  - simpl app. destruct root as [|entries]; [destruct p; reflexivity|].
    rewrite remove_cons. destruct p.
    + simpl. rewrite assoc_del_entry_other by exact Hxy. reflexivity.
    + destruct (JS.assoc x entries); [|reflexivity].
      simpl. rewrite assoc_set_entry_other by exact Hxy. reflexivity.
  - change ((a :: c) ++ x :: p) with (a :: (c ++ x :: p)).
    change ((a :: c) ++ y :: q) with (a :: (c ++ y :: q)).
    destruct root as [|entries].
    { destruct (c ++ x :: p); reflexivity. }
    rewrite remove_cons_deep by apply app_cons_not_nil.
    destruct (JS.assoc a entries) as [child|] eqn:Ha; [|reflexivity].
    simpl. rewrite assoc_set_entry_same, Ha. apply IH.
Qed.

(** A directory above the removed path stays a directory. *)
Lemma lookup_remove_above q x p root entries :
  lookup q root = Some (Dir entries) ->
  exists entries', lookup q (remove (q ++ x :: p) root) = Some (Dir entries').
Proof.
  revert root. induction q as [|a q IH]; intros root Hdir.
  - simpl in Hdir. injection Hdir as ->. simpl app. rewrite remove_cons.
    destruct p; [simpl; eauto|].
    destruct (JS.assoc x entries); simpl; eauto.
  - destruct root as [|es]; [discriminate|]. simpl in Hdir.
    destruct (JS.assoc a es) as [child|] eqn:Ha; [|discriminate].
    change ((a :: q) ++ x :: p) with (a :: (q ++ x :: p)).
    rewrite remove_cons_deep, Ha by apply app_cons_not_nil.
    simpl. rewrite assoc_set_entry_same. apply IH, Hdir.
Qed.

Lemma lookup_remove_child p name root entries :
  lookup p root = Some (Dir entries) ->
  lookup p (remove (p ++ [name]) root) = Some (Dir (del_entry name entries)).
Proof.
  revert root. induction p as [|a p IH]; intros root Hdir.
  - simpl in Hdir. injection Hdir as ->. reflexivity.
  - destruct root as [|es]; [discriminate|]. simpl in Hdir.
    destruct (JS.assoc a es) as [child|] eqn:Ha; [|discriminate].
    change ((a :: p) ++ [name]) with (a :: (p ++ [name])).
    rewrite remove_cons_deep, Ha by apply app_cons_not_nil.
    simpl. rewrite assoc_set_entry_same. apply IH, Hdir.
Qed.

(** What lies above an existing entry is a directory. *)
Lemma lookup_above p x q root n :
  lookup (p ++ x :: q) root = Some n ->
  exists entries, lookup p root = Some (Dir entries).
Proof.
  rewrite lookup_app. destruct (lookup p root) as [[|entries]|]; simpl;
    try discriminate; eauto.
Qed.

End FSFacts.

(** ** Layout normalization on the tree filesystem *)

Import FSFacts.

Section Normalization.

Variable network : string -> option (Z * string).
Variable sha256 : string -> string.
Variable base64_of_bytes : string -> string.
Variable unarchive : string -> option (list (string * FS.node)).

Abbreviation on_disk :=
  (FS.gateway network sha256 base64_of_bytes unarchive).


(** A lone directory is moved up, through the temporary path, which has
    to be free. *)
Lemma normalizeLayout_moves_wrapped_up (BASE id name : string)
  (kids : list (string * FS.node)) (root : FS.node) :
  FS.is_name id = true ->
  FS.is_name name = true ->
  FS.lookup (FS.parse (pathForComponent BASE id)) root
    = Some (FS.Dir [(name, FS.Dir kids)]) ->
  FS.lookup (FS.parse (tmpMovePathOf BASE id)) root = None ->
  exists root',
    normalizeLayout (G := on_disk) BASE id root = (Ok tt, root')
    /\ FS.lookup (FS.parse (pathForComponent BASE id)) root'
       = Some (FS.Dir kids)
    /\ FS.lookup (FS.parse (tmpMovePathOf BASE id)) root' = None
    /\ (forall other rest,
          other <> "components" -> other <> id ->
          FS.lookup (FS.parse BASE ++ other :: rest) root'
          = FS.lookup (FS.parse BASE ++ other :: rest) root).
Proof.
  intros Hid Hname Hinstall Hfree.
  pose proof (parse_pathForComponent BASE id Hid) as Ecp.
  pose proof (parse_tmpMovePathOf BASE id Hid) as Etm.
  set (B := FS.parse BASE) in *.
  assert (Enested : FS.parse (pathForComponent BASE id +:+ "/" +:+ name)
                    = B ++ ["components"; id; name]).
  { rewrite parse_app, Ecp, (parse_name name Hname), <- app_assoc.
    reflexivity. }
  unfold normalizeLayout, bind, ret. simpl.
  unfold FS.fs_readDir. rewrite Hinstall. simpl.
  unfold FS.fs_moveFile at 1.
  rewrite Enested. rewrite Ecp in *. rewrite Etm in *.
  (* the identifier is not the components directory itself *)
  assert (Hne : id <> "components").
  { intros ->.
    change (B ++ ["components"; "components"])
      with (B ++ "components" :: ["components"]) in Hinstall.
    replace (B ++ "components" :: ["components"])
      with ((B ++ ["components"]) ++ ["components"]) in Hinstall
      by (rewrite <- app_assoc; reflexivity).
    apply lookup_above in Hinstall as [es Hes]. congruence. }
  assert (Hnested : FS.lookup (B ++ ["components"; id; name]) root
                    = Some (FS.Dir kids)).
  { change (B ++ ["components"; id; name])
      with (B ++ ["components"; id] ++ [name]).
    rewrite app_assoc, lookup_app, Hinstall. simpl.
    rewrite String.eqb_refl. reflexivity. }
  rewrite Hnested. unfold FS.exists_at. rewrite Hfree.
  (* first move: the wrapped directory goes to the temporary path *)
  destruct (lookup_above B "components" [id] root _ Hinstall) as [esB HB].
  destruct (lookup_remove_above B "components" [id; name] root esB HB)
    as [esB' HB'].
  destruct (insert_under_directory B id (FS.Dir kids) _ esB' HB')
    as [root1 Hroot1].
  rewrite Hroot1.
  assert (Hcp1 : FS.lookup (B ++ ["components"; id]) root1
                 = Some (FS.Dir [])).
  { rewrite (lookup_insert_diverging B id "components" [] [id] _ _ _
               Hne Hroot1).
    change (B ++ ["components"; id; name])
      with (B ++ ["components"; id] ++ [name]).
    rewrite app_assoc.
    rewrite (lookup_remove_child _ name root _ Hinstall).
    simpl. rewrite String.eqb_refl. reflexivity. }
  assert (Htm1 : FS.lookup (B ++ [id]) root1 = Some (FS.Dir kids))
    by exact (lookup_insert_same _ _ _ _ Hroot1).
  (* the emptied install directory is deleted *)
  unfold FS.fs_unlink, FS.exists_at. rewrite Ecp, Hcp1.
  set (root2 := FS.remove (B ++ ["components"; id]) root1).
  assert (Hcp2 : FS.lookup (B ++ ["components"; id]) root2 = None)
    by (apply lookup_remove_same, app_cons_not_nil).
  assert (Htm2 : FS.lookup (B ++ [id]) root2 = Some (FS.Dir kids)).
  { unfold root2.
    rewrite (lookup_remove_diverging B "components" id [id] [] root1
               (not_eq_sym Hne)).
    exact Htm1. }
  (* second move: the temporary path becomes the install directory *)
  unfold FS.fs_moveFile, FS.exists_at. rewrite Etm, Ecp, Htm2, Hcp2.
  assert (HP : exists es, FS.lookup (B ++ ["components"])
                            (FS.remove (B ++ [id]) root2)
                          = Some (FS.Dir es)).
  { rewrite (lookup_remove_diverging B id "components" [] [] root2 Hne).
    unfold root2.
    replace (B ++ ["components"; id]) with ((B ++ ["components"]) ++ [id])
      by (rewrite <- app_assoc; reflexivity).
    assert (exists es, FS.lookup (B ++ ["components"]) root1
                       = Some (FS.Dir es)) as [es1 Hes1].
    { replace (B ++ ["components"; id])
        with ((B ++ ["components"]) ++ [id]) in Hcp1
        by (rewrite <- app_assoc; reflexivity).
      exact (lookup_above _ _ _ _ _ Hcp1). }
    exact (lookup_remove_above _ id [] root1 es1 Hes1). }
  destruct HP as [esP HP].
  destruct (insert_under_directory (B ++ ["components"]) id (FS.Dir kids)
              _ esP HP) as [root3 Hroot3].
  rewrite <- app_assoc in Hroot3. simpl in Hroot3. rewrite Hroot3.
  exists root3. split; [reflexivity|]. split; [|split].
  - exact (lookup_insert_same _ _ _ _ Hroot3).
  - rewrite (lookup_insert_diverging B "components" id [id] [] _ _ _
               (not_eq_sym Hne) Hroot3).
    apply lookup_remove_same, app_cons_not_nil.
  - intros other rest Hcomponents Hother.
    rewrite (lookup_insert_diverging B "components" other [id] rest _ _ _
               (not_eq_sym Hcomponents) Hroot3).
    rewrite (lookup_remove_diverging B id other [] rest root2
               (not_eq_sym Hother)).
    unfold root2.
    rewrite (lookup_remove_diverging B "components" other [id] rest root1
               (not_eq_sym Hcomponents)).
    rewrite (lookup_insert_diverging B id other [] rest _ _ _
               (not_eq_sym Hother) Hroot1).
    apply (lookup_remove_diverging B "components" other [id; name] rest root
             (not_eq_sym Hcomponents)).
Qed.



End Normalization.

(** ** The pipeline on the tree filesystem *)

Lemma has_char_app (c : ascii) (a b : string) :
  JS.has_char c (a +:+ b) = JS.has_char c a || JS.has_char c b.
Proof.
  induction a as [|x a IH]; simpl; [reflexivity|].
  rewrite IH. apply Bool.orb_assoc.
Qed.

Lemma archive_name_is_name (id : string) :
  FS.is_name id = true -> FS.is_name (id +:+ ".zip") = true.
Proof.
  unfold FS.is_name, FS.nonempty. intros Hid.
  apply andb_prop in Hid as [Hne Hslash].
  rewrite has_char_app. apply Bool.negb_true_iff in Hslash.
  rewrite Hslash. destruct id; [discriminate | reflexivity].
Qed.

Lemma archive_name_not_components (id : string) :
  id +:+ ".zip" <> "components".
Proof.
  intros H.
  repeat (destruct id as [|? id]; simpl in H;
          [discriminate H | injection H as _ H]).
  destruct id; discriminate H.
Qed.

Lemma parse_tmpLocationOf (BASE id : string) :
  FS.is_name id = true ->
  FS.parse (tmpLocationOf BASE id) = FS.parse BASE ++ [id +:+ ".zip"].
Proof.
  intros Hid. unfold tmpLocationOf.
  rewrite FSFacts.parse_app,
    (FSFacts.parse_name _ (archive_name_is_name id Hid)).
  reflexivity.
Qed.

Section OnDisk.

Variable network : string -> option (Z * string).
Variable sha256 : string -> string.
Variable base64_of_bytes : string -> string.
Variable unarchive : string -> option (list (string * FS.node)).
Variable Features : list FeatureDescription.
Variable FeatureChecksums : gmap string FeatureChecksum.
Variable BASE : string.

Abbreviation storage :=
  (FS.gateway network sha256 base64_of_bytes unarchive).

(** On the tree, a missing directory or file is what [getFile] reports as
    [undefined]. *)
Lemma getFile_of_missing_entry (id relativePath : string) (root : FS.node) :
  FS.lookup (FS.parse (pathForComponent BASE id)) root = None
  \/ FS.lookup (FS.parse (pathForComponent BASE id +:+ "/" +:+ relativePath))
       root = None ->
  getFile (G := storage) BASE id relativePath root = (Ok None, root).
Proof.
  intros Hmissing. unfold getFile, bind, ret. simpl.
  unfold FS.fs_exists, FS.exists_at.
  destruct (FS.lookup (FS.parse (pathForComponent BASE id)) root) eqn:Hdir;
    [|reflexivity].
  destruct Hmissing as [Hm | Hm]; [discriminate|].
  simpl. rewrite Hm. reflexivity.
Qed.

(** X23: on the tree, a download whose checksum does not match leaves the
    install directory exactly as it was. *)
Lemma checksum_mismatch_keeps_install_directory
  (component : SNComponent) (feature : FeatureDescription)
  (url body : string) (statusCode : Z) (root : FS.node)
  (documents : list (string * FS.node)) :
  let id := identifier component in
  FS.is_name id = true ->
  nativeFeatureForIdentifier Features id = Some feature ->
  downloadUrlOf Features component = Some url ->
  url <> "" ->
  network url = Some (statusCode, body) ->
  (200 <= statusCode <= 299)%Z ->
  FS.lookup (FS.parse BASE) root = Some (FS.Dir documents) ->
  JS.truthy_string (desiredChecksumOf FeatureChecksums id) = false
  \/ desiredChecksumOf FeatureChecksums id
     <> Some (sha256 (base64_of_bytes body)) ->
  exists root',
    downloadComponentOffline (G := storage) Features FeatureChecksums BASE
      component root = (Ok (Some ChecksumMismatch), root')
    /\ FS.lookup (FS.parse (pathForComponent BASE id)) root'
       = FS.lookup (FS.parse (pathForComponent BASE id)) root.
Proof.
  intros id Hid Hnat Hurl Hne Hnet Hstatus Hdocs Hbad. subst id.
  set (id := identifier component) in *.
  pose proof (FSFacts.parse_pathForComponent BASE id Hid) as Ecp.
  pose proof (parse_tmpLocationOf BASE id Hid) as Etmp.
  pose proof (archive_name_not_components id) as Hzip.
  set (B := FS.parse BASE) in *.
  (* the stale archive, if any, is deleted *)
  set (root1 := if FS.exists_at (B ++ [id +:+ ".zip"]) root
                then FS.remove (B ++ [id +:+ ".zip"]) root else root).
  assert (Hcp1 : FS.lookup (B ++ ["components"; id]) root1
                 = FS.lookup (B ++ ["components"; id]) root).
  { unfold root1. destruct (FS.exists_at _ root); [|reflexivity].
    apply (FSFacts.lookup_remove_diverging B (id +:+ ".zip") "components"
             [] [id] root Hzip). }
  assert (Hdocs1 : exists es, FS.lookup B root1 = Some (FS.Dir es)).
  { unfold root1. destruct (FS.exists_at _ root); [|eauto].
    exact (FSFacts.lookup_remove_above B (id +:+ ".zip") [] root _ Hdocs). }
  destruct Hdocs1 as [es1 Hdocs1].
  (* the archive is written *)
  destruct (FSFacts.insert_under_directory B (id +:+ ".zip") (FS.File body)
              root1 es1 Hdocs1) as [root2 Hroot2].
  exists root2. split.
  - assert (Htruthy : JS.truthy_string (Some url) = true).
    { simpl. destruct (String.eqb_spec url ""); [congruence | reflexivity]. }
    unfold downloadComponentOffline, try_catch, bind, ret, throw.
    rewrite Hurl, Htruthy. cbn [negb default].
    unfold performDownloadComponent, passesChecksumValidation,
      isComponentThirdParty, bind, ret.
    fold id. rewrite Hnat. cbn [negb].
    cbn [RNFS_exists RNFS_unlink RNFS_downloadFile RNFS_readFile
         crypto_sha256 FS.gateway].
    unfold FS.fs_exists, FS.fs_unlink, FS.fs_downloadFile, FS.fs_readFile.
    rewrite !Etmp. unfold Datatypes.id. rewrite Hnet.
    assert (Hread : FS.lookup (B ++ [id +:+ ".zip"]) root2
                    = Some (FS.File body))
      by exact (FSFacts.lookup_insert_same _ _ _ _ Hroot2).
    unfold root1 in Hroot2.
    destruct (FS.exists_at (B ++ [id +:+ ".zip"]) root) eqn:Hstale;
      cbv beta iota; rewrite ?Hstale; cbv beta iota;
      rewrite Hroot2; cbv beta iota;
      rewrite (status_2xx_passes _ Hstatus); cbv beta iota;
      cbn [negb]; cbv beta iota; rewrite Hread; cbv beta iota.
    all: destruct Hbad as [Hmissing | Hdiffers];
      [ rewrite Hmissing; reflexivity | ].
    all: destruct (JS.truthy_string (desiredChecksumOf FeatureChecksums id));
      [|reflexivity]; cbn [negb]; cbv beta iota.
    all: rewrite bool_decide_eq_false_2 by congruence; reflexivity.
  - rewrite Ecp, <- Hcp1.
    apply (FSFacts.lookup_insert_diverging B (id +:+ ".zip") "components"
             [] [id] _ _ _ Hzip Hroot2).
Qed.

(** X24: on the tree, the first installation of a third-party plugin
    whose archive wraps its files in one directory. The identifier and
    the name of the wrapping directory are single path names, the
    directory [components] of the documents directory exists, and neither
    the install directory nor the temporary move path does; the download
    answers 2xx. Then the download succeeds, the install directory holds
    the wrapped directory's children, and the temporary archive is
    gone. *)
Lemma download_unwraps_wrapped_archive
  (component : SNComponent) (url body name : string) (statusCode : Z)
  (kids components : list (string * FS.node)) (root : FS.node) :
  let id := identifier component in
  FS.is_name id = true ->
  FS.is_name name = true ->
  nativeFeatureForIdentifier Features id = None ->
  downloadUrlOf Features component = Some url ->
  url <> "" ->
  network url = Some (statusCode, body) ->
  (200 <= statusCode <= 299)%Z ->
  unarchive body = Some [(name, FS.Dir kids)] ->
  FS.lookup (FS.parse BASE ++ ["components"]) root
    = Some (FS.Dir components) ->
  FS.lookup (FS.parse (pathForComponent BASE id)) root = None ->
  FS.lookup (FS.parse (tmpMovePathOf BASE id)) root = None ->
  exists root',
    downloadComponentOffline (G := storage) Features FeatureChecksums BASE
      component root = (Ok None, root')
    /\ FS.lookup (FS.parse (pathForComponent BASE id)) root'
       = Some (FS.Dir kids)
    /\ FS.lookup (FS.parse (tmpLocationOf BASE id)) root' = None.
Proof.
  intros id Hid Hname Hnat Hurl Hne Hnet Hstatus Harchive HP Hcp Htm.
  subst id. set (id := identifier component) in *.
  pose proof (FSFacts.parse_pathForComponent BASE id Hid) as Ecp.
  pose proof (FSFacts.parse_tmpMovePathOf BASE id Hid) as Etm.
  pose proof (parse_tmpLocationOf BASE id Hid) as Etmp.
  pose proof (archive_name_not_components id) as Hzip.
  assert (Hzip' : id +:+ ".zip" <> id).
  { intros E. apply (f_equal String.length) in E.
    rewrite length_app_string in E. simpl in E. lia. }
  set (B := FS.parse BASE) in *.
  rewrite Ecp in Hcp. rewrite Etm in Htm.
  assert (Hidc : id <> "components") by (intros E; rewrite E in Htm; congruence).
  (* the stale archive, if any, is deleted *)
  set (root1 := if FS.exists_at (B ++ [id +:+ ".zip"]) root
                then FS.remove (B ++ [id +:+ ".zip"]) root else root).
  assert (H1 : forall other rest,
             other <> id +:+ ".zip" ->
             FS.lookup (B ++ other :: rest) root1
             = FS.lookup (B ++ other :: rest) root).
  { intros other rest Hother. unfold root1.
    destruct (FS.exists_at _ root); [|reflexivity].
    apply (FSFacts.lookup_remove_diverging B (id +:+ ".zip") other
             [] rest root (not_eq_sym Hother)). }
  assert (HP1 : FS.lookup (B ++ ["components"]) root1
                = Some (FS.Dir components))
    by (rewrite H1 by congruence; exact HP).
  destruct (FSFacts.lookup_above B "components" [] root1 _ HP1)
    as [docs1 Hdocs1].
  (* the archive is written *)
  destruct (FSFacts.insert_under_directory B (id +:+ ".zip") (FS.File body)
              root1 docs1 Hdocs1) as [root2 Hroot2].
  assert (H2 : forall other rest,
             other <> id +:+ ".zip" ->
             FS.lookup (B ++ other :: rest) root2
             = FS.lookup (B ++ other :: rest) root).
  { intros other rest Hother.
    rewrite (FSFacts.lookup_insert_diverging B (id +:+ ".zip") other
               [] rest _ _ _ (not_eq_sym Hother) Hroot2).
    apply H1, Hother. }
  assert (Hread2 : FS.lookup (B ++ [id +:+ ".zip"]) root2
                   = Some (FS.File body))
    by exact (FSFacts.lookup_insert_same _ _ _ _ Hroot2).
  (* the archive is unpacked into a new install directory *)
  assert (HP2 : FS.lookup (B ++ ["components"]) root2
                = Some (FS.Dir components))
    by (rewrite H2 by congruence; exact HP).
  destruct (FSFacts.insert_under_directory (B ++ ["components"]) id
              (FS.Dir [(name, FS.Dir kids)]) root2 _ HP2) as [root3 Hroot3].
  rewrite <- app_assoc in Hroot3. simpl in Hroot3.
  assert (H3 : forall other rest,
             other <> "components" ->
             FS.lookup (B ++ other :: rest) root3
             = FS.lookup (B ++ other :: rest) root2).
  { intros other rest Hother.
    apply (FSFacts.lookup_insert_diverging B "components" other [id] rest
             _ _ _ (not_eq_sym Hother) Hroot3). }
  assert (Hcp3 : FS.lookup (FS.parse (pathForComponent BASE id)) root3
                 = Some (FS.Dir [(name, FS.Dir kids)]))
    by (rewrite Ecp; exact (FSFacts.lookup_insert_same _ _ _ _ Hroot3)).
  assert (Htm3 : FS.lookup (FS.parse (tmpMovePathOf BASE id)) root3 = None).
  { rewrite Etm. fold B. rewrite (H3 id []) by exact Hidc.
    rewrite (H2 id []) by congruence. exact Htm. }
  (* the wrapped directory is moved up *)
  destruct (normalizeLayout_moves_wrapped_up network sha256 base64_of_bytes
              unarchive BASE id name kids root3 Hid Hname Hcp3 Htm3)
    as (root4 & Hrun4 & Hcp4 & _ & H4).
  fold B in H4.
  assert (Hread4 : FS.lookup (B ++ [id +:+ ".zip"]) root4
                   = Some (FS.File body)).
  { rewrite (H4 (id +:+ ".zip") []) by assumption.
    rewrite (H3 (id +:+ ".zip") []) by assumption. exact Hread2. }
  exists (FS.remove (B ++ [id +:+ ".zip"]) root4).
  assert (Hcp5 : FS.lookup (B ++ ["components"; id])
                   (FS.remove (B ++ [id +:+ ".zip"]) root4)
                 = Some (FS.Dir kids)).
  { rewrite (FSFacts.lookup_remove_diverging B (id +:+ ".zip") "components"
               [] [id] root4 Hzip).
    rewrite <- Ecp. exact Hcp4. }
  split; [|split].
  - assert (Htruthy : JS.truthy_string (Some url) = true).
    { simpl. destruct (String.eqb_spec url ""); [congruence | reflexivity]. }
    unfold downloadComponentOffline, try_catch, bind, ret, throw.
    rewrite Hurl, Htruthy. cbn [negb default].
    unfold performDownloadComponent, isComponentThirdParty, bind, ret.
    fold id. rewrite Hnat. cbn [negb].
    cbn [RNFS_exists RNFS_unlink RNFS_downloadFile unzip FS.gateway].
    unfold FS.fs_exists, FS.fs_unlink, FS.fs_downloadFile, FS.fs_unzip.
    rewrite !Etmp, !Ecp. unfold Datatypes.id. rewrite Hnet.
    assert (Hcp2 : FS.lookup (B ++ ["components"; id]) root2 = None)
      by (rewrite (H2 "components" [id]) by congruence; exact Hcp).
    unfold root1 in Hroot2.
    destruct (FS.exists_at (B ++ [id +:+ ".zip"]) root) eqn:Hstale;
      cbv beta iota; rewrite ?Hstale; cbv beta iota;
      rewrite Hroot2; cbv beta iota;
      rewrite (status_2xx_passes _ Hstatus); cbv beta iota;
      cbn [negb]; cbv beta iota;
      rewrite Hread2, Harchive, Hcp2, Hroot3; cbv beta iota;
      rewrite Hrun4; cbv beta iota;
      unfold FS.exists_at; rewrite Hread4, Hcp5; reflexivity.
  - rewrite Ecp. exact Hcp5.
  - rewrite Etmp. apply FSFacts.lookup_remove_same, FSFacts.app_cons_not_nil.
Qed.

End OnDisk.

(** ** The properties at the sample data *)

Section Samples.

Import Sample.

Abbreviation sample_download G component :=
  (downloadComponentOffline (G := G) Features FeatureChecksums BASE
     component).

(** The end-to-end scenario of a mismatching checksum. *)
Lemma checksum_mismatch_blocks_extraction_witness :
  let tmpLocation := tmpLocationOf BASE editor_id in
  sample_download (recording scripted) editor (mismatch_script, [])
  = (Ok (Some ChecksumMismatch), ([], mismatch_script))
  /\ Forall (fun ev => is_extraction_call ev = false) mismatch_script
  /\ Forall (fun ev => forall p, In p (written_paths ev) -> p = tmpLocation)
            mismatch_script
  /\ String.prefix (pathForComponent BASE editor_id) tmpLocation = false.
Proof.
  split; [vm_compute; reflexivity|].
  apply (proj2 (checksum_mismatch_blocks_extraction scripted Features
                  FeatureChecksums BASE editor mismatch_script []
                  (Ok (Some ChecksumMismatch)) mismatch_script
                  editor_feature editor_url "UEsDBAoAAAAAAA" "BBB=" 200%Z
                  eq_refl eq_refl
                  ltac:(simpl; auto) ltac:(lia) ltac:(simpl; auto 6)
                  ltac:(right; vm_compute; discriminate))).
Defined.

(** The same scenario on the tree: afterwards there is no directory at
    the component path. *)
Example checksum_mismatch_on_disk :
  exists root',
    sample_download online_disk editor fresh_storage
    = (Ok (Some ChecksumMismatch), root')
    /\ FS.lookup (FS.parse (pathForComponent BASE editor_id)) root' = None.
Proof. eexists. split; vm_compute; reflexivity. Qed.

(** The plugin's archive wraps its files in [markdown-1.3.0]: once
    installed, the files are directly in the install directory. *)
Example plugin_install_on_disk :
  exists root',
    sample_download online_disk plugin fresh_storage = (Ok None, root')
    /\ FS.lookup (FS.parse plugin_path) root'
       = Some (FS.Dir [("index.html", html);
                       ("package.json", FS.File manifest_1_3_0)])
    /\ doesComponentNeedDownload (G := online_disk) Features BASE
         JSON_parse plugin root' = (Ok false, root').
Proof. eexists. repeat split; vm_compute; reflexivity. Qed.

Lemma third_party_download_skips_checksum_witness :
  sample_download (recording scripted) plugin (install_script, [])
  = (Ok None, ([], install_script))
  /\ Forall (fun ev => is_checksum_call ev = false) install_script.
Proof.
  split; [vm_compute; reflexivity|].
  apply (proj2 (third_party_download_skips_checksum scripted Features
                  FeatureChecksums BASE plugin install_script []
                  (Ok None) install_script eq_refl eq_refl)).
Defined.

(** A corrupt archive makes the extraction throw: the outcome is
    [Unknown]. *)
Lemma download_catches_pipeline_exceptions_witness :
  sample_download scripted plugin corrupt_archive_script
  = (Ok (Some Unknown), []).
Proof.
  apply (proj1 (download_catches_pipeline_exceptions scripted Features
                  FeatureChecksums BASE plugin plugin_url
                  corrupt_archive_script eq_refl
                  ltac:(discriminate)) "corrupt archive" []).
  vm_compute. reflexivity.
Defined.

(** C3 fails as stated: the existence check that follows the pipeline is
    outside the [try] block, and an exception of it reaches the caller. *)
Lemma rejected_existence_check_is_not_caught :
  downloadUrlOf Features plugin = Some plugin_url
  /\ sample_download scripted plugin rejected_check_script
     = (Threw "EACCES", []).
Proof. split; vm_compute; reflexivity. Qed.

(** The server answers 404. *)
Lemma failed_download_stops_pipeline_witness :
  let tmpLocation := tmpLocationOf BASE plugin_id in
  sample_download (recording scripted) plugin (not_found_script, [])
  = (Ok (Some FailedDownload), ([], not_found_script))
  /\ Forall (fun ev => is_checksum_call ev = false) not_found_script
  /\ Forall (fun ev => is_extraction_call ev = false) not_found_script
  /\ Forall (fun ev => forall p, In p (written_paths ev) -> p = tmpLocation)
            not_found_script.
Proof.
  split; [vm_compute; reflexivity|].
  apply (proj2 (failed_download_stops_pipeline scripted Features
                  FeatureChecksums BASE plugin not_found_script []
                  (Ok (Some FailedDownload)) not_found_script plugin_url
                  404%Z eq_refl
                  ltac:(simpl; auto) ltac:(right; lia))).
Defined.

(** Installed 1.2.0, latest 1.3.0: a download is needed. *)
Lemma download_needed_exactly_when_newer_witness :
  doesComponentNeedDownload (G := scripted) Features BASE JSON_parse plugin
    (installed_script manifest_1_2_0) = (Ok true, [])
  /\ doesComponentNeedDownload (G := scripted) Features BASE JSON_parse
       plugin (installed_script manifest_1_3_0) = (Ok false, [])
  /\ doesComponentNeedDownload (G := scripted) Features BASE JSON_parse
       local_only [] 
     = (Threw "Attempting to download component with no download url", []).
Proof.
  pose proof (download_needed_exactly_when_newer scripted Features BASE
                JSON_parse plugin (installed_script manifest_1_2_0))
    as (_ & Hold & _).
  pose proof (download_needed_exactly_when_newer scripted Features BASE
                JSON_parse plugin (installed_script manifest_1_3_0))
    as (_ & Hsame & _).
  pose proof (download_needed_exactly_when_newer scripted Features BASE
                JSON_parse local_only []) as (Hnone & _).
  cbv zeta in Hold, Hsame, Hnone.
  destruct (Hold eq_refl (Some (JS.JObject [("version", JS.JString "1.2.0")]))
              [] eq_refl) as (needed1 & Hrun1 & _ & _ & Hyes & _).
  destruct (Hsame eq_refl (Some (JS.JObject [("version", JS.JString "1.3.0")]))
              [] eq_refl) as (needed2 & Hrun2 & _ & _ & _ & Hno).
  rewrite Hrun1, Hrun2, (Hyes eq_refl eq_refl), (Hno eq_refl eq_refl).
  split; [reflexivity|]. split; [reflexivity|]. exact (Hnone eq_refl).
Defined.

Lemma missing_file_reads_as_undefined_witness :
  getFile (G := scripted) BASE plugin_id "index.html"
    nothing_installed_script = (Ok None, [])
  /\ doesComponentNeedDownload (G := scripted) Features BASE JSON_parse
       plugin nothing_installed_script = (Ok true, []).
Proof.
  pose proof (missing_file_reads_as_undefined scripted Features BASE
                JSON_parse plugin_id "index.html" nothing_installed_script
                []) as (Hfile & Hmanifest).
  split.
  - apply Hfile. left. reflexivity.
  - apply Hmanifest; [left; reflexivity | reflexivity | reflexivity].
Defined.

Lemma system_theme_url_is_inline_stylesheet_witness :
  exists payload,
    urlForComponent Features BASE objectToCss super_urlForComponent
      Object_prototype Array_prototype manager system_theme
    = Ok ("data:text/css;base64," +:+ payload)
    /\ Base64.decode payload = Some (objectToCss (variables system_theme))
    /\ (forall other : ComponentManager,
          urlForComponent Features BASE objectToCss super_urlForComponent
            Object_prototype Array_prototype other system_theme
          = Ok ("data:text/css;base64," +:+ payload))
    /\ (forall server,
          staticServerUrl manager = Some server ->
          String.prefix "http:" server = true ->
          JS.includes ("data:text/css;base64," +:+ payload) server = false).
Proof.
  apply (system_theme_url_is_inline_stylesheet Features BASE objectToCss
           super_urlForComponent Object_prototype Array_prototype manager
           system_theme);
    reflexivity.
Defined.

Lemma unpreloaded_index_path_throws_in_urlForComponent_witness :
  getIndexFileRelativePath Features Object_prototype Array_prototype manager
    plugin_id = None
  /\ urlForComponent Features BASE objectToCss super_urlForComponent
       Object_prototype Array_prototype manager plugin
     = Threw "Third party index path was not preloaded".
Proof.
  destruct (unpreloaded_index_path_throws_in_urlForComponent Features BASE
              objectToCss super_urlForComponent Object_prototype
              Array_prototype manager plugin eq_refl eq_refl eq_refl)
    as [Hpath Hurl].
  split; [exact Hpath | apply Hurl; reflexivity].
Defined.

(** C7 fails as stated: without a cached path,
    [getIndexFileRelativePath] returns the value [undefined]. *)
Lemma getIndexFileRelativePath_returns_undefined :
  isComponentThirdParty Features plugin_id = true
  /\ PlainObject.own (thirdPartyIndexPaths manager) !! plugin_id = None
  /\ getIndexFileRelativePath Features Object_prototype Array_prototype
       manager plugin_id
     = None.
Proof. repeat split. Qed.

(** An identifier naming a member of [Object.prototype] reads that
    member, and the identifier [__proto__] reads the prototype itself, so
    that no exception is raised for them. *)
Example inherited_member_is_read :
  getIndexFileRelativePath Features Object_prototype Array_prototype manager
    "constructor"
  = Some (JS.JString "function Object() { [native code] }")
  /\ JS.template
       (getIndexFileRelativePath Features Object_prototype Array_prototype
          manager "__proto__")
     = "[object Object]".
Proof. split; reflexivity. Qed.

(** After the preload, the URL points into the local server. *)
Example preloaded_plugin_url :
  match preloadThirdPartyIndexPathFromDisk (G := scripted) BASE JSON_parse
          manager plugin_id (installed_script manifest_1_3_0) with
  | (Ok this, _) =>
      urlForComponent Features BASE objectToCss super_urlForComponent
        Object_prototype Array_prototype this plugin
  | (Threw e, _) => Threw e
  end
  = Ok "http://localhost:8080/com.thirdparty.markdown/index.html".
Proof. vm_compute. reflexivity. Qed.



Lemma trashed_note_common_actions_witness :
  List.map ActionSheet.action_key
    (ActionSheet.actions (ActionSheet.commonSection trashed_note))
  = [ActionSheet.Pin; ActionSheet.Archive; ActionSheet.Lock;
     ActionSheet.Protect; ActionSheet.ShareAction;
     ActionSheet.Restore; ActionSheet.DeletePermanently].
Proof.
  exact (proj1 (proj2 (proj2 (trashed_note_common_actions trashed_note
                                eq_refl eq_refl)))).
Defined.

(** C9 fails as stated: the section of a trashed note holds seven
    actions, not only Restore and Delete permanently. *)
Lemma trashed_note_keeps_other_actions :
  List.map ActionSheet.action_text
    (ActionSheet.actions (ActionSheet.commonSection trashed_note))
  = ["Pin to top"; "Archive"; "Lock"; "Protect"; "Share";
     "Restore"; "Delete permanently"]
  /\ ActionSheet.actions (ActionSheet.commonSection trashed_note)
     <> [ActionSheet.restoreAction; ActionSheet.deleteAction].
Proof. split; [reflexivity | discriminate]. Qed.

End Samples.


(** ** More on the download pipeline, for any collaborators *)

Section Outcomes.

Context {W : Type} (G : Collaborators W).
Variable Features : list FeatureDescription.
Variable FeatureChecksums : gmap string FeatureChecksum.
Variable BASE_DOCUMENTS_PATH : string.

Ltac next_answer H :=
  match type of H with
  | context [@RNFS_exists W G ?p ?w] =>
      destruct (@RNFS_exists W G p w) as [[[|]|?] ?] eqn:?
  | context [@RNFS_unlink W G ?p ?w] =>
      destruct (@RNFS_unlink W G p w) as [[[]|?] ?] eqn:?
  | context [@RNFS_downloadFile W G ?u ?p ?w] =>
      destruct (@RNFS_downloadFile W G u p w) as [[?|?] ?] eqn:?
  | context [@RNFS_readFile W G ?p ?e ?w] =>
      destruct (@RNFS_readFile W G p e w) as [[?|?] ?] eqn:?
  | context [@RNFS_readDir W G ?p ?w] =>
      destruct (@RNFS_readDir W G p w) as [[[|? [|? ?]]|?] ?] eqn:?
  | context [@RNFS_moveFile W G ?a ?b ?w] =>
      destruct (@RNFS_moveFile W G a b w) as [[[]|?] ?] eqn:?
  | context [@unzip W G ?a ?b ?w] =>
      destruct (@unzip W G a b w) as [[[]|?] ?] eqn:?
  | context [@crypto_sha256 W G ?t ?w] =>
      destruct (@crypto_sha256 W G t w) as [[?|?] ?] eqn:?
  | context [if ?b then _ else _] => destruct b eqn:?
  end; simpl in H.

Ltac open_download H :=
  unfold downloadComponentOffline, performDownloadComponent,
    passesChecksumValidation, normalizeLayout, try_catch, bind, ret, throw
    in H;
  simpl in H.

Ltac facts_of_tests :=
  repeat match goal with
         | Hb : negb _ = true |- _ => apply Bool.negb_true_iff in Hb
         | Hb : negb _ = false |- _ => apply Bool.negb_false_iff in Hb
         | Hd : bool_decide _ = true |- _ => apply bool_decide_eq_true in Hd
         end.

(** All the runs of a download, one goal for each sequence of answers. *)
Ltac every_run H :=
  open_download H; repeat next_answer H;
  inversion H; subst; clear H; facts_of_tests.

(** The same, for a component whose download URL is known. *)
Ltac every_run_from H Hurl :=
  unfold downloadComponentOffline in H; rewrite Hurl in H;
  every_run H.

Abbreviation observed_download component w :=
  (downloadComponentOffline (G := recording G) Features FeatureChecksums
     BASE_DOCUMENTS_PATH component (w, [])).

(** X1: when [downloadComponentOffline] reports success, the archive was
    fetched with a status whose text begins with [2], it was unpacked
    into the install directory, the temporary archive was deleted, and
    the last call confirmed that the install directory exists. *)
Theorem successful_download_means_installed
  (component : SNComponent) (w w' : W) log :
  let id := identifier component in
  let tmpLocation := tmpLocationOf BASE_DOCUMENTS_PATH id in
  let componentPath := pathForComponent BASE_DOCUMENTS_PATH id in
  observed_download component w = (Ok None, (w', log)) ->
  (exists url statusCode,
      downloadUrlOf Features component = Some url
      /\ In (EvDownloadFile url tmpLocation (Ok statusCode)) log
      /\ JS.startsWith (JS.String_number statusCode) "2" = true)
  /\ In (EvUnzip tmpLocation componentPath (Ok tt)) log
  /\ In (EvUnlink tmpLocation (Ok tt)) (after_download log)
  /\ last log = Some (EvExists componentPath (Ok true)).
Proof.
  intros id tmpLocation componentPath Hrun.
  subst id tmpLocation componentPath.
  destruct (downloadUrlOf Features component) as [url|] eqn:Hurl.
  2: { unfold downloadComponentOffline in Hrun. rewrite Hurl in Hrun.
       discriminate Hrun. }
  every_run_from Hrun Hurl.
  all: split; [exists url; eexists; split; [reflexivity|]; split;
               [simpl; eauto 8 | assumption] |].
  all: split; [simpl; eauto 12|].
  all: split; [simpl; eauto 12 | reflexivity].
Qed.

(** X2: every error outcome has its own cause, and the run stops at it.
    [LocalServerFailure] is never returned; [FailedDownload] follows a
    download whose status text does not begin with [2]; [ChecksumMismatch]
    follows the digest call, for an identifier of the registry only;
    [DoesntExist] follows a negative existence check of the install
    directory; [Unknown] follows a call that threw. *)
Theorem download_error_has_its_cause
  (component : SNComponent) (w w' : W) (error : ComponentLoadingError) log :
  let id := identifier component in
  observed_download component w = (Ok (Some error), (w', log)) ->
  match error with
  | LocalServerFailure => False
  | FailedDownload =>
      exists url statusCode,
        last log = Some (EvDownloadFile url
                           (tmpLocationOf BASE_DOCUMENTS_PATH id)
                           (Ok statusCode))
        /\ JS.startsWith (JS.String_number statusCode) "2" = false
  | ChecksumMismatch =>
      isComponentThirdParty Features id = false
      /\ exists text checksum,
           last log = Some (EvSha256 text (Ok checksum))
           /\ (JS.truthy_string (desiredChecksumOf FeatureChecksums id)
               = false
               \/ desiredChecksumOf FeatureChecksums id <> Some checksum)
  | DoesntExist =>
      last log = Some (EvExists (pathForComponent BASE_DOCUMENTS_PATH id)
                         (Ok false))
  | Unknown =>
      exists ev, last log = Some ev /\ event_threw ev = true
  end.
Proof.
  intros id Hrun. subst id.
  every_run Hrun.
  all: try (eexists; eexists; split; [reflexivity | assumption]).
  all: try (eexists; split; reflexivity).
  all: try reflexivity.
  all: split; [assumption|]; eexists; eexists; split; [reflexivity|].
  all: first [ left; assumption | right ].
  all: match goal with
       | Hd : bool_decide _ = false |- _ =>
           apply bool_decide_eq_false in Hd; congruence
       end.
Qed.

(** X3: a component without a resolvable download URL is rejected at
    once: [downloadComponentOffline] and [doesComponentNeedDownload]
    throw before any call to the storage or the network. A downloadable
    component always starts by probing its temporary archive. *)
Theorem undownloadable_component_is_rejected_without_calls
  (JSON_parse : string -> option JS.json) (component : SNComponent)
  (w : W) :
  (isComponentDownloadable Features component = false ->
   observed_download component w = (Threw no_download_url, (w, []))
   /\ doesComponentNeedDownload (G := recording G) Features
        BASE_DOCUMENTS_PATH JSON_parse component (w, [])
      = (Threw no_download_url, (w, [])))
  /\ (isComponentDownloadable Features component = true ->
      forall r w' log,
        observed_download component w = (r, (w', log)) ->
        exists answer rest,
          log = EvExists (tmpLocationOf BASE_DOCUMENTS_PATH
                            (identifier component)) answer :: rest).
Proof.
  unfold isComponentDownloadable. split.
  - intros Hurl.
    unfold downloadComponentOffline, doesComponentNeedDownload.
    rewrite Hurl. split; reflexivity.
  - intros Hurl r w' log Hrun.
    unfold downloadComponentOffline in Hrun. rewrite Hurl in Hrun.
    every_run Hrun.
    all: eexists; eexists; reflexivity.
Qed.

(** X4: a run downloads at most once, from the resolved URL into the
    temporary archive; and the URL of the registry, when it has one, is
    the one resolved, whatever the component declares itself. *)
Theorem download_fetches_resolved_url_once
  (component : SNComponent) (w w' : W) r log :
  let id := identifier component in
  observed_download component w = (r, (w', log)) ->
  length (List.filter is_download_call log) <= 1
  /\ (forall fromUrl toFile answer,
        In (EvDownloadFile fromUrl toFile answer) log ->
        downloadUrlOf Features component = Some fromUrl
        /\ toFile = tmpLocationOf BASE_DOCUMENTS_PATH id)
  /\ (forall feature url,
        nativeFeatureForIdentifier Features id = Some feature ->
        feature_download_url feature = Some url ->
        url <> "" ->
        downloadUrlOf Features component = Some url).
Proof.
  intros id Hrun. subst id.
  split; [|split].
  3: { intros feature url Hnat Hfeature Hne. unfold downloadUrlOf.
       rewrite Hnat. simpl. rewrite Hfeature. unfold JS.or_string. simpl.
       destruct (String.eqb_spec url ""); [congruence | reflexivity]. }
  all: destruct (downloadUrlOf Features component) as [url|] eqn:Hurl;
    [ every_run_from Hrun Hurl
    | unfold downloadComponentOffline in Hrun; rewrite Hurl in Hrun;
      inversion Hrun; subst; simpl; try lia; intros ? ? ? [] ].
  all: simpl; try lia.
  all: intros fromUrl toFile answer Hin.
  all: repeat (destruct Hin as [Hin | Hin];
               [first [discriminate Hin
                      | injection Hin as <- <- <-; split; reflexivity] |]).
  all: destruct Hin.
Qed.

(** X5: for an identifier of the registry, nothing is unpacked unless the
    digest of the fetched archive's Base64 text is exactly the non-empty
    checksum registered for it. *)
Theorem native_extraction_requires_matching_checksum
  (component : SNComponent) (feature : FeatureDescription)
  (w w' : W) r log :
  let id := identifier component in
  let tmpLocation := tmpLocationOf BASE_DOCUMENTS_PATH id in
  nativeFeatureForIdentifier Features id = Some feature ->
  observed_download component w = (r, (w', log)) ->
  forall source target answer,
    In (EvUnzip source target answer) log ->
    exists text checksum,
      In (EvReadFile tmpLocation Base64Text (Ok text)) log
      /\ In (EvSha256 text (Ok checksum)) log
      /\ desiredChecksumOf FeatureChecksums id = Some checksum
      /\ checksum <> "".
Proof.
  intros id tmpLocation Hnat Hrun source target answer Hin.
  subst id tmpLocation.
  unfold downloadComponentOffline, performDownloadComponent,
    isComponentThirdParty in Hrun.
  rewrite Hnat in Hrun.
  every_run Hrun.
  all: repeat (destruct Hin as [Hin | Hin]; [try discriminate Hin|]);
    try destruct Hin.
  all: eexists; eexists; split; [simpl; eauto 8|]; split; [simpl; eauto 8|].
  all: match goal with
       | Heq : Some ?c = desiredChecksumOf _ _,
         Ht : JS.truthy_string (desiredChecksumOf _ _) = true |- _ =>
           rewrite <- Heq in Ht |- *; split; [reflexivity|];
           intros ->; discriminate Ht
       end.
Qed.

(** X6: a stale temporary archive is deleted before anything is fetched;
    when that deletion fails nothing is fetched and the outcome is
    [Unknown]. Before the download, a run only probes and deletes the
    temporary archive. *)
Theorem stale_archive_is_deleted_before_download
  (component : SNComponent) (w w' : W) r log :
  let tmpLocation :=
    tmpLocationOf BASE_DOCUMENTS_PATH (identifier component) in
  observed_download component w = (r, (w', log)) ->
  (forall rest,
      log = EvExists tmpLocation (Ok true) :: rest ->
      exists answer rest',
        rest = EvUnlink tmpLocation answer :: rest'
        /\ (forall e, answer = Threw e ->
                      rest' = [] /\ r = Ok (Some Unknown)))
  /\ Forall (fun ev => event_path ev = tmpLocation
                       /\ is_download_call ev = false
                       /\ is_extraction_call ev = false
                       /\ is_checksum_call ev = false)
            (before_download log).
Proof.
  intros tmpLocation Hrun. subst tmpLocation.
  every_run Hrun.
  all: split; [|simpl; repeat constructor].
  all: intros rest Hlog; try discriminate Hlog.
  all: injection Hlog as <-.
  all: eexists; eexists; split; [reflexivity|].
  all: intros err He; try discriminate He.
  all: split; reflexivity.
Qed.

(** X7: after [FailedDownload] or [ChecksumMismatch] the temporary
    archive is left where it was written: no deletion follows the
    download. *)
Theorem failed_attempt_keeps_temporary_archive
  (component : SNComponent) (w w' : W) (error : ComponentLoadingError) log :
  observed_download component w = (Ok (Some error), (w', log)) ->
  error = FailedDownload \/ error = ChecksumMismatch ->
  Forall (fun ev => is_unlink_call ev = false
                    /\ is_extraction_call ev = false)
         (after_download log).
Proof.
  intros Hrun Herror.
  every_run Hrun.
  all: destruct Herror as [Herror | Herror]; try discriminate Herror.
  all: simpl; repeat constructor.
Qed.

(** X8: the footprint of a download. Whatever the collaborators answer,
    a run creates, replaces or deletes nothing but the temporary archive,
    the install directory, the temporary move path and the single
    directory that the listing of the install directory reported. *)
Theorem download_writes_only_its_own_paths
  (component : SNComponent) (w w' : W) r log :
  let id := identifier component in
  let componentPath := pathForComponent BASE_DOCUMENTS_PATH id in
  observed_download component w = (r, (w', log)) ->
  Forall (fun ev =>
            forall p,
              In p (written_paths ev) ->
              p = tmpLocationOf BASE_DOCUMENTS_PATH id
              \/ p = componentPath
              \/ p = tmpMovePathOf BASE_DOCUMENTS_PATH id
              \/ exists nestedDir,
                   In (EvReadDir componentPath (Ok [nestedDir])) log
                   /\ item_isDirectory nestedDir = true
                   /\ p = item_path nestedDir)
         log.
Proof.
  intros id componentPath Hrun. subst id componentPath.
  every_run Hrun.
  all: simpl; repeat apply List.Forall_cons; try apply List.Forall_nil.
  all: intros written Hin; simpl in Hin.
  all: repeat (destruct Hin as [<- | Hin]; [auto 6|]); try destruct Hin.
  all: do 3 right; eexists; split; [simpl; eauto 12|];
    split; [assumption | reflexivity].
Qed.

End Outcomes.


(** ** Texts: prefixes, cancellation, and the last piece of a split *)

Lemma prefix_append (p s : string) : String.prefix p (p +:+ s) = true.
Proof.
  induction p as [|a p IH]; simpl; [destruct s; reflexivity|].
  destruct (Ascii.ascii_dec a a); [exact IH | congruence].
Qed.

Lemma prefix_reflexive (p : string) : String.prefix p p = true.
Proof.
  induction p as [|a p IH]; simpl; [reflexivity|].
  destruct (Ascii.ascii_dec a a); [exact IH | congruence].
Qed.



Lemma append_cancel_l (s a b : string) : s +:+ a = s +:+ b -> a = b.
Proof.
  induction s as [|x s IH]; intros H; [exact H|].
  change (String x (s +:+ a) = String x (s +:+ b)) in H.
  injection H as H. exact (IH H).
Qed.

Lemma append_cancel_r (a b s : string) : a +:+ s = b +:+ s -> a = b.
Proof.
  revert b. induction a as [|x a IH]; intros [|y b] H.
  - reflexivity.
  - apply (f_equal String.length) in H.
    rewrite !length_app_string in H. simpl in H. lia.
  - apply (f_equal String.length) in H.
    rewrite !length_app_string in H. simpl in H. lia.
  - change (String x (a +:+ s) = String y (b +:+ s)) in H.
    injection H as -> H. rewrite (IH _ H). reflexivity.
Qed.







(** ** The cache of index paths and the URLs built from it *)

Section IndexPaths.

Context {W : Type} (G : Collaborators W).
Variable Features : list FeatureDescription.
Variable BASE_DOCUMENTS_PATH : string.
Variable JSON_parse : string -> option JS.json.
Variable objectToCss : ThemeVariables -> string.
Variable super_urlForComponent : SNComponent -> Res string.
Variable Object_prototype : string -> option JS.json.
Variable Array_prototype : string -> option JS.json.

Ltac next_probe H :=
  match type of H with
  | context [@RNFS_exists W G ?p ?w] =>
      destruct (@RNFS_exists W G p w) as [[[|]|?] ?] eqn:?
  | context [@RNFS_readFile W G ?p ?e ?w] =>
      destruct (@RNFS_readFile W G p e w) as [[?|?] ?] eqn:?
  | context [match JSON_parse ?t with _ => _ end] =>
      destruct (JSON_parse t) eqn:?
  | context [if ?b then _ else _] => destruct b eqn:?
  end; simpl in H.

(** X9: deciding whether a download is needed only looks at the
    storage: every call is an existence probe or a text read of the
    install directory or of a file below it, there are at most three of
    them, and nothing is written, fetched or unpacked. *)
Theorem download_decision_only_reads
  (component : SNComponent) (w w' : W) r log :
  doesComponentNeedDownload (G := recording G) Features
    BASE_DOCUMENTS_PATH JSON_parse component (w, []) = (r, (w', log)) ->
  Forall (reads_under BASE_DOCUMENTS_PATH (identifier component)) log
  /\ Forall (fun ev => written_paths ev = []) log
  /\ length log <= 3.
Proof.
  assert (Hunder : forall id rel,
             String.prefix (pathForComponent BASE_DOCUMENTS_PATH id)
               (pathForComponent BASE_DOCUMENTS_PATH id +:+ "/" +:+ rel)
             = true) by (intros; apply prefix_append).
  pose proof prefix_reflexive as Hself.
  intros Hrun.
  unfold doesComponentNeedDownload, getDownloadedComponentPackageJsonFile,
    getFile, bind, ret, throw in Hrun. simpl in Hrun.
  repeat next_probe Hrun.
  all: inversion Hrun; subst; clear Hrun.
  all: split; [|split; [repeat constructor | simpl; lia]].
  all: repeat constructor; simpl; auto.
Qed.

(** X10: reading the index file of a component, with the preload of its
    index path, only looks at the storage: at most six calls, each an
    existence probe or a text read of the install directory, of its
    [package.json], or of the install directory's path followed by a
    slash and the index path as [getIndexFileRelativePath] gives it.
    That path is not checked: for a third-party component it is what the
    manifest says. Nothing is written. *)
Theorem index_file_lookup_only_reads
  (this : ComponentManager) (id : string) (w w' : W) r log :
  getIndexFile (G := recording G) Features BASE_DOCUMENTS_PATH JSON_parse
    Object_prototype Array_prototype this id (w, []) = (r, (w', log)) ->
  exists relativePath,
    Forall (index_file_probe BASE_DOCUMENTS_PATH id relativePath) log
    /\ Forall (fun ev => written_paths ev = []) log
    /\ length log <= 6
    /\ (forall this' file,
          r = Ok (this', file) ->
          relativePath
          = JS.template
              (getIndexFileRelativePath Features Object_prototype
                 Array_prototype this' id)).
Proof.
  intros Hrun.
  unfold getIndexFile, preloadThirdPartyIndexPathFromDisk,
    getDownloadedComponentPackageJsonFile, getFile, bind, ret, throw
    in Hrun. simpl in Hrun.
  repeat next_probe Hrun.
  all: inversion Hrun; subst; clear Hrun.
  all: first [ match goal with
               | |- context [Ok (?manager, _) = Ok _] =>
                   exists (JS.template
                             (getIndexFileRelativePath Features
                                Object_prototype Array_prototype manager id))
               end
             | match goal with
               | H : context [JS.template ?path] |- _ =>
                   exists (JS.template path)
               end
             | exists EmptyString ].
  all: split; [|split; [repeat constructor|split; [simpl; lia|]]].
  all: try (repeat apply List.Forall_cons; try apply List.Forall_nil;
            (split; [reflexivity | simpl; auto])).
  all: intros this'' file' Hr;
    first [discriminate Hr | injection Hr as <- <-; reflexivity].
Qed.


Lemma set_own_elsewhere (obj : PlainObject.t) (key other : string)
  (v : JS.json) :
  other <> key ->
  PlainObject.own (PlainObject.set obj key v) !! other
  = PlainObject.own obj !! other.
Proof.
  intros Hother. unfold PlainObject.set.
  destruct (negb (String.eqb key "__proto__"));
    [apply lookup_insert_ne; congruence|].
  destruct (PlainObject.own obj !! key);
    [apply lookup_insert_ne; congruence|].
  destruct (PlainObject.own_of_prototype (PlainObject.prototype obj) key);
    [apply lookup_insert_ne; congruence|].
  destruct (PlainObject.prototype obj);
    try (apply lookup_insert_ne; congruence);
    destruct v; reflexivity.
Qed.

Lemma set_defines (obj : PlainObject.t) (key : string) (v : JS.json) :
  key <> "__proto__" ->
  PlainObject.set obj key v
  = {| PlainObject.own := <[key := v]> (PlainObject.own obj);
       PlainObject.prototype := PlainObject.prototype obj |}.
Proof.
  intros Hkey. unfold PlainObject.set.
  destruct (String.eqb_spec key "__proto__"); [contradiction|reflexivity].
Qed.

Lemma get_after_set_elsewhere (obj : PlainObject.t) (key other : string)
  (v : JS.json) :
  key <> "__proto__" ->
  other <> key ->
  PlainObject.get Object_prototype Array_prototype
    (PlainObject.set obj key v) other
  = PlainObject.get Object_prototype Array_prototype obj other.
Proof.
  intros Hkey Hother. rewrite (set_defines obj key v Hkey).
  unfold PlainObject.get, PlainObject.inherited. cbn.
  rewrite lookup_insert_ne by congruence. reflexivity.
Qed.



(** X13: looking up the index file changes no own entry of the cache
    but the one of the requested identifier, nor the server URL or the
    active theme. For an identifier other than [__proto__] the prototype
    of the cache is kept as well, so that the cache gives the same for
    every other key, and for a third-party one the index path is truthy
    afterwards. For a native identifier the manager is unchanged. *)
Theorem getIndexFile_touches_one_cache_entry
  (this this' : ComponentManager) (id : string) (file : option string)
  (w w' : W) :
  getIndexFile Features BASE_DOCUMENTS_PATH JSON_parse Object_prototype
    Array_prototype this id w = (Ok (this', file), w') ->
  (forall other,
      other <> id ->
      PlainObject.own (thirdPartyIndexPaths this') !! other
      = PlainObject.own (thirdPartyIndexPaths this) !! other)
  /\ (id <> "__proto__" ->
      PlainObject.prototype (thirdPartyIndexPaths this')
      = PlainObject.prototype (thirdPartyIndexPaths this)
      /\ (forall other,
            other <> id ->
            cachedIndexPath Object_prototype Array_prototype this' other
            = cachedIndexPath Object_prototype Array_prototype this other)
      /\ (isComponentThirdParty Features id = true ->
          JS.truthy
            (getIndexFileRelativePath Features Object_prototype
               Array_prototype this' id)
          = true))
  /\ staticServerUrl this' = staticServerUrl this
  /\ mobileActiveTheme this' = mobileActiveTheme this
  /\ (isComponentThirdParty Features id = false -> this' = this).
Proof.
  intros Hrun. unfold getIndexFile, bind, ret in Hrun.
  destruct (isComponentThirdParty Features id) eqn:Hthird.
  - unfold preloadThirdPartyIndexPathFromDisk, bind, ret in Hrun.
    destruct (getDownloadedComponentPackageJsonFile BASE_DOCUMENTS_PATH
                JSON_parse id w) as [[packageJson|e] w1];
      [|discriminate Hrun].
    set (main := JS.or (JS.get (JS.get packageJson "sn") "main")
                   (Some (JS.JString "index.html"))) in *.
    assert (Htruthy : JS.truthy main = true).
    { unfold main, JS.or.
      destruct (JS.truthy (JS.get (JS.get packageJson "sn") "main"))
        eqn:E; [exact E | reflexivity]. }
    destruct main as [path|]; [|discriminate Htruthy].
    match type of Hrun with
    | context [getFile ?b ?i ?p ?x] =>
        destruct (getFile b i p x) as [[?|?] ?]
    end; [|discriminate Hrun].
    injection Hrun as <- _ _.
    cbn [thirdPartyIndexPaths staticServerUrl mobileActiveTheme].
    split; [intros other Hother; apply set_own_elsewhere, Hother|].
    split; [|split; [reflexivity|split; [reflexivity|discriminate]]].
    intros Hproto. unfold cachedIndexPath.
    cbn [thirdPartyIndexPaths].
    split; [rewrite (set_defines _ id path Hproto); reflexivity|].
    split; [intros other Hother;
            exact (get_after_set_elsewhere _ id other path Hproto Hother)|].
    intros _. unfold getIndexFileRelativePath, cachedIndexPath.
    unfold isComponentThirdParty in Hthird.
    destruct (nativeFeatureForIdentifier Features id);
      [discriminate Hthird|].
    cbn [thirdPartyIndexPaths]. rewrite (set_defines _ id path Hproto).
    unfold PlainObject.get. cbn [PlainObject.own].
    rewrite lookup_insert_eq. exact Htruthy.
  - match type of Hrun with
    | context [getFile ?b ?i ?p ?x] =>
        destruct (getFile b i p x) as [[?|?] ?]
    end; [|discriminate Hrun].
    injection Hrun as <- _ _.
    split; [reflexivity|].
    split; [|split; [reflexivity|split; reflexivity]].
    intros _. split; [reflexivity|]. split; [reflexivity|discriminate].
Qed.

End IndexPaths.

(** X14: two components never share an install directory or a temporary
    archive: the three paths of a component determine its identifier. *)
Theorem component_paths_are_injective (BASE a b : string) :
  (pathForComponent BASE a = pathForComponent BASE b <-> a = b)
  /\ (tmpLocationOf BASE a = tmpLocationOf BASE b <-> a = b)
  /\ (tmpMovePathOf BASE a = tmpMovePathOf BASE b <-> a = b).
Proof.
  unfold pathForComponent, tmpLocationOf, tmpMovePathOf.
  repeat split; intros H; try (subst; reflexivity).
  - apply append_cancel_l in H. apply append_cancel_l in H.
    apply (append_cancel_l "/") in H. exact H.
  - apply append_cancel_l in H. apply (append_cancel_l "/") in H.
    apply append_cancel_r in H. exact H.
  - apply append_cancel_l in H. apply (append_cancel_l "/") in H. exact H.
Qed.

(** ** Uninstalling on the tree filesystem *)

Section Uninstall.

Variable network : string -> option (Z * string).
Variable sha256 : string -> string.
Variable base64_of_bytes : string -> string.
Variable unarchive : string -> option (list (string * FS.node)).
Variable Features : list FeatureDescription.
Variable BASE : string.
Variable JSON_parse : string -> option JS.json.

Abbreviation tree_storage :=
  (FS.gateway network sha256 base64_of_bytes unarchive).


End Uninstall.

(** ** The action sheet *)

Section ActionSheetFacts.

Import ActionSheet.

(** X16: which actions the common section offers. Protect is always
    there; the others only for an unprotected note; Move to Trash only
    when the note is not in the trash, Restore and Delete permanently
    only when it is; the history and Listed keys never. *)
Theorem common_section_offers (note : SNNote) (key : NoteAction) :
  In key (offered note)
  <-> match key with
      | Protect => True
      | Pin | Archive | Lock | ShareAction => protected note = false
      | Trash => protected note = false /\ trashed note = false
      | Restore | DeletePermanently =>
          protected note = false /\ trashed note = true
      | OpenHistory | Listed => False
      end.
Proof.
  unfold offered, commonSection.
  destruct (protected note), (trashed note), key; simpl;
    intuition discriminate.
Qed.

(** X17: in the common section of any note no key occurs twice, every
    action dismisses the sheet, the only dangerous action is Delete
    permanently, and the only actions without an icon are Restore and
    Delete permanently. *)
Theorem common_section_actions_are_distinct (note : SNNote) :
  List.NoDup (offered note)
  /\ Forall (fun action =>
               dismissSheetOnPress action = true
               /\ (danger action = true
                   <-> action_key action = DeletePermanently)
               /\ (iconType action = None
                   <-> action_key action = Restore
                       \/ action_key action = DeletePermanently))
            (actions (commonSection note)).
Proof.
  unfold offered, commonSection.
  destruct (protected note), (trashed note); simpl; split.
  all: try (repeat (constructor; [simpl; intuition discriminate|]);
            constructor; fail).
  all: repeat apply List.Forall_cons; try apply List.Forall_nil.
  all: simpl; split; [reflexivity|].
  all: split; split; intros H; try discriminate H; try reflexivity.
  all: try (destruct H as [H | H]; discriminate H).
  all: auto.
Qed.

End ActionSheetFacts.

(** ** The actions of a Listed extension *)

Section ListedActionsFacts.

Import ListedActions.

Lemma flagged_matches (action : Action) (params : Params) :
  matches action (flagged action params) = true.
Proof.
  unfold matches, flagged. simpl. rewrite !String.eqb_refl. reflexivity.
Qed.

Lemma updatedAction_absorbs (action : Action) (first second : Params)
  (act : option Action) :
  updatedAction action second (updatedAction action first act)
  = updatedAction action second act.
Proof.
  destruct act as [a|]; [|reflexivity]. simpl.
  destruct (String.eqb (verb a) (verb action)
            && String.eqb (url a) (url action)) eqn:Hm.
  - simpl. rewrite !String.eqb_refl. reflexivity.
  - simpl. rewrite Hm. reflexivity.
Qed.

(** X18: the list assigned by [updateAction] has the length of the
    extension's list; an entry with the verb and the URL of the action
    becomes the action itself with the two flags of the parameters, so
    that a flag that the parameters leave out is cleared; every other
    entry stays. A second update of the same action overrides the first
    one completely. *)
Theorem updateAction_replaces_matching_entries
  (action : Action) (extension : SNActionsExtension) (params : Params) :
  length (updatedActions action extension params)
  = length (actions extension)
  /\ (forall i a,
        actions extension !! i = Some (Some a) ->
        updatedActions action extension params !! i
        = Some (Some (if matches action a then flagged action params
                      else a)))
  /\ (forall i,
        actions extension !! i = Some None ->
        updatedActions action extension params !! i = Some None)
  /\ (forall first,
        updatedActions action
          {| uuid := uuid extension;
             actions := updatedActions action extension first |} params
        = updatedActions action extension params).
Proof.
  unfold updatedActions. split; [apply length_map|].
  split; [|split].
  - intros i a Hi. rewrite list_lookup_fmap, Hi. simpl.
    unfold matches, flagged.
    destruct (String.eqb (verb a) (verb action)
              && String.eqb (url a) (url action)); reflexivity.
  - intros i Hi. rewrite list_lookup_fmap, Hi. reflexivity.
  - intros first. simpl. rewrite List.map_map.
    apply List.map_ext. intros act. apply updatedAction_absorbs.
Qed.

Section Protocol.

Context {W : Type} (Sh : SheetCollaborators W).

Ltac next_reply H :=
  match type of H with
  | context [@application_changeItem W Sh ?u ?a ?w] =>
      destruct (@application_changeItem W Sh u a w) as [[[]|?] ?] eqn:?
  | context [@actionsManager_runAction W Sh ?a ?w] =>
      destruct (@actionsManager_runAction W Sh a w) as [[?|?] ?] eqn:?
  | context [if ?b then _ else _] => destruct b eqn:?
  end; simpl in H.

(** X19: the protocol of [executeAction]. The action is first marked as
    running. When it completes normally, exactly two updates of the
    extension were made, the second one marking the action as failed
    (the reload state is kept) or as not running (a reload of that
    extension is requested), according to the response. When running the
    action throws, nothing follows: the action stays marked as running
    and no reload is requested. *)
Theorem executeAction_marks_the_action
  (action : Action) (extension : SNActionsExtension) (state : ReloadState)
  (w w' : W) r log :
  let update params :=
    (uuid extension, updatedActions action extension params) in
  executeAction (Sh := logging Sh) true action extension state (w, [])
  = (r, (w', log)) ->
  (exists rest, updates log = update started :: rest)
  /\ (forall state',
        r = Ok state' ->
        exists response,
          In (EvRunAction action (Ok response)) log
          /\ (if JS.truthy (JS.get response "error")
              then updates log = [update started; update failed]
                   /\ state' = state
              else updates log = [update started; update finished]
                   /\ state'
                      = {| reloadListedExtensionUuid :=
                             Some (uuid extension);
                           shouldReloadListedSections := true |}))
  /\ (forall e,
        In (EvRunAction action (Threw e)) log ->
        r = Threw e /\ updates log = [update started]).
Proof.
  intros update Hrun. subst update.
  unfold executeAction, updateAction, bind, ret in Hrun. simpl in Hrun.
  repeat next_reply Hrun.
  all: inversion Hrun; subst; clear Hrun.
  all: split; [eexists; reflexivity|].
  all: split;
    [ intros state' Hok;
      first [ discriminate Hok
            | injection Hok as <-; eexists; split; [simpl; eauto|];
              match goal with
              | Ht : JS.truthy _ = _ |- _ => rewrite Ht
              end; split; reflexivity ]
    | ].
  all: intros err Hin; simpl in Hin.
  all: repeat (destruct Hin as [Hin | Hin];
               [first [discriminate Hin
                      | injection Hin as <-; split; reflexivity] |]).
  all: destruct Hin.
Qed.

End Protocol.

End ListedActionsFacts.

(** ** The local server and the URLs it serves *)

Section ServerFacts.

Import Server.

Context {W : Type} (Sv : ServerCollaborators W).
Variable Features : list FeatureDescription.
Variable BASE_DOCUMENTS_PATH : string.
Variable objectToCss : ThemeVariables -> string.
Variable super_urlForComponent : SNComponent -> Res string.
Variable Object_prototype : string -> option JS.json.
Variable Array_prototype : string -> option JS.json.

Abbreviation component_server :=
  {| server_port := STATIC_SERVER_PORT;
     server_root := BASE_DOCUMENTS_PATH +:+ COMPONENTS_PATH;
     localOnly := true |}.


(** X21: when the server fails to start, the failure is reported and
    logged, not thrown: whatever the alert answers, the manager is
    returned as it was as soon as the logging returns. A manager that
    never had a server then fails to shut down: after the parent's
    shutdown a [TypeError] is raised. *)
Theorem failed_server_start_is_swallowed
  (this : ServedManager) (e : exn) (answer : Res unit) (w w1 w2 w3 : W) :
  StaticServer_start component_server w = (Threw e, w1) ->
  alertService_alert start_failure_message w1 = (answer, w2) ->
  SNLog_error e w2 = (Ok tt, w3) ->
  initialize BASE_DOCUMENTS_PATH this w = (Ok this, w3)
  /\ (staticServer this = None ->
      forall v v',
        super_deinit v = (Ok tt, v') ->
        deinit this v = (Threw "TypeError", v')).
Proof.
  intros Hstart Halert Hlog. split.
  - unfold initialize, createServer, try_catch, bind, ret, not_awaited.
    rewrite Hstart, Halert, Hlog. reflexivity.
  - intros Hnone v v' Hsuper. unfold deinit, bind, throw.
    rewrite Hsuper, Hnone. reflexivity.
Qed.

(** X22: the active themes are the theme set last, alone; there is never
    more than one; setting a theme changes no URL. *)
Theorem active_theme_is_the_last_one_set
  (this : ComponentManager) (first theme component : SNComponent) :
  getActiveThemes (setMobileActiveTheme this theme) = [theme]
  /\ getActiveThemes
       (setMobileActiveTheme (setMobileActiveTheme this first) theme)
     = [theme]
  /\ length (getActiveThemes this) <= 1
  /\ urlForComponent Features BASE_DOCUMENTS_PATH objectToCss
       super_urlForComponent Object_prototype Array_prototype
       (setMobileActiveTheme this theme) component
     = urlForComponent Features BASE_DOCUMENTS_PATH objectToCss
         super_urlForComponent Object_prototype Array_prototype this
         component.
Proof.
  split; [reflexivity|]. split; [reflexivity|]. split.
  - unfold getActiveThemes. destruct (mobileActiveTheme this); simpl; lia.
  - reflexivity.
Qed.

End ServerFacts.

(** ** The further properties at the sample data *)

Section Scenarios.

Import Sample Scenario.

Abbreviation observed_run component script :=
  (downloadComponentOffline (G := recording scripted) Features
     FeatureChecksums BASE component (script, [])).

(** The complete installation of the plugin. *)
Lemma successful_download_means_installed_witness :
  (exists url statusCode,
      downloadUrlOf Features plugin = Some url
      /\ In (EvDownloadFile url plugin_tmp (Ok statusCode)) install_script
      /\ JS.startsWith (JS.String_number statusCode) "2" = true)
  /\ In (EvUnzip plugin_tmp plugin_path (Ok tt)) install_script
  /\ In (EvUnlink plugin_tmp (Ok tt)) (after_download install_script)
  /\ last install_script = Some (EvExists plugin_path (Ok true)).
Proof.
  exact (successful_download_means_installed scripted Features
           FeatureChecksums BASE plugin install_script [] install_script
           eq_refl).
Defined.

(** The mismatching checksum of the editor's archive. *)
Lemma download_error_has_its_cause_witness :
  isComponentThirdParty Features editor_id = false
  /\ exists text checksum,
       last mismatch_script = Some (EvSha256 text (Ok checksum))
       /\ (JS.truthy_string (desiredChecksumOf FeatureChecksums editor_id)
           = false
           \/ desiredChecksumOf FeatureChecksums editor_id <> Some checksum).
Proof.
  exact (download_error_has_its_cause scripted Features FeatureChecksums
           BASE editor mismatch_script [] ChecksumMismatch mismatch_script
           eq_refl).
Defined.

(** A component without a download URL. *)
Lemma undownloadable_component_is_rejected_without_calls_witness :
  observed_run local_only [] = (Threw no_download_url, ([], []))
  /\ doesComponentNeedDownload (G := recording scripted) Features BASE
       JSON_parse local_only ([], [])
     = (Threw no_download_url, ([], [])).
Proof.
  exact (proj1 (undownloadable_component_is_rejected_without_calls scripted
                  Features FeatureChecksums BASE JSON_parse local_only [])
           eq_refl).
Defined.

Lemma download_fetches_resolved_url_once_witness :
  length (List.filter is_download_call install_script) <= 1
  /\ downloadUrlOf Features plugin = Some plugin_url
  /\ plugin_tmp = tmpLocationOf BASE plugin_id.
Proof.
  destruct (download_fetches_resolved_url_once scripted Features
              FeatureChecksums BASE plugin install_script [] (Ok None)
              install_script eq_refl) as (Honce & Hfrom & _).
  split; [exact Honce|].
  exact (Hfrom plugin_url plugin_tmp (Ok 200%Z) ltac:(simpl; auto)).
Defined.

(** The editor's archive is unpacked after its digest was found to be the
    registered [AAA=]. *)
Lemma native_extraction_requires_matching_checksum_witness :
  exists text checksum,
    In (EvReadFile editor_tmp Base64Text (Ok text)) verified_script
    /\ In (EvSha256 text (Ok checksum)) verified_script
    /\ desiredChecksumOf FeatureChecksums editor_id = Some checksum
    /\ checksum <> "".
Proof.
  exact (native_extraction_requires_matching_checksum scripted Features
           FeatureChecksums BASE editor editor_feature verified_script []
           (Ok None) verified_script eq_refl eq_refl
           editor_tmp editor_path (Ok tt) ltac:(simpl; auto 8)).
Defined.

(** The stale archive cannot be deleted: the run ends there. *)
Lemma stale_archive_is_deleted_before_download_witness :
  observed_run plugin stale_archive_script
  = (Ok (Some Unknown), ([], stale_archive_script))
  /\ exists answer rest',
       [EvUnlink plugin_tmp (Threw "EBUSY")]
       = EvUnlink plugin_tmp answer :: rest'
       /\ (forall e,
             answer = Threw e ->
             rest' = []
             /\ Ok (Some Unknown)
                = Ok (Some Unknown) :> Res (option ComponentLoadingError)).
Proof.
  split; [vm_compute; reflexivity|].
  exact (proj1 (stale_archive_is_deleted_before_download scripted Features
                  FeatureChecksums BASE plugin stale_archive_script []
                  (Ok (Some Unknown)) stale_archive_script eq_refl)
           [EvUnlink plugin_tmp (Threw "EBUSY")] eq_refl).
Defined.

(** After the answer 404 the archive stays. *)
Lemma failed_attempt_keeps_temporary_archive_witness :
  Forall (fun ev => is_unlink_call ev = false
                    /\ is_extraction_call ev = false)
         (after_download not_found_script).
Proof.
  exact (failed_attempt_keeps_temporary_archive scripted Features
           FeatureChecksums BASE plugin not_found_script [] FailedDownload
           not_found_script eq_refl (or_introl eq_refl)).
Defined.

(** The installation from an archive that wraps its files. *)
Lemma download_writes_only_its_own_paths_witness :
  observed_run plugin wrapped_install_script
  = (Ok None, ([], wrapped_install_script))
  /\ Forall (fun ev =>
               forall p,
                 In p (written_paths ev) ->
                 p = plugin_tmp
                 \/ p = plugin_path
                 \/ p = tmpMovePathOf BASE plugin_id
                 \/ exists nestedDir,
                      In (EvReadDir plugin_path (Ok [nestedDir]))
                        wrapped_install_script
                      /\ item_isDirectory nestedDir = true
                      /\ p = item_path nestedDir)
            wrapped_install_script.
Proof.
  split; [vm_compute; reflexivity|].
  exact (download_writes_only_its_own_paths scripted Features
           FeatureChecksums BASE plugin wrapped_install_script [] (Ok None)
           wrapped_install_script eq_refl).
Defined.

(** Installed 1.2.0, latest 1.3.0. *)
Lemma download_decision_only_reads_witness :
  Forall (reads_under BASE plugin_id) (installed_script manifest_1_2_0)
  /\ Forall (fun ev => written_paths ev = [])
       (installed_script manifest_1_2_0)
  /\ length (installed_script manifest_1_2_0) <= 3.
Proof.
  exact (download_decision_only_reads scripted Features BASE JSON_parse
           plugin (installed_script manifest_1_2_0) [] (Ok true)
           (installed_script manifest_1_2_0) eq_refl).
Defined.

(** The manifest's entry point climbs out of the install directory: the
    file read is named by the install directory's path followed by that
    entry point. *)
Lemma index_file_lookup_only_reads_witness :
  Forall (index_file_probe BASE plugin_id "../../secret.txt")
    escaping_script
  /\ In (EvReadFile (plugin_path +:+ "/../../secret.txt") Utf8 (Ok "secret"))
       escaping_script.
Proof.
  destruct (index_file_lookup_only_reads scripted Features BASE
              escaping_parse Object_prototype Array_prototype manager
              plugin_id escaping_script []
              (Ok ({| mobileActiveTheme := None;
                      staticServerUrl := Some "http://localhost:8080";
                      thirdPartyIndexPaths :=
                        PlainObject.set PlainObject.empty plugin_id
                          (JS.JString "../../secret.txt") |},
                   Some "secret"))
              escaping_script eq_refl)
    as (relativePath & Hprobes & _ & _ & Hpath).
  rewrite (Hpath _ _ eq_refl) in Hprobes.
  split; [exact Hprobes | simpl; auto 8].
Defined.



(** An identifier that begins with [components] loses that beginning in
    the URL. *)
Example components_prefix_is_cut_off :
  JS.includes (identifier extra) COMPONENTS_PATH = false
  /\ urlForComponent Features BASE objectToCss super_urlForComponent
       Object_prototype Array_prototype extra_manager extra
     = Ok "http://localhost:8080-extra/index.html".
Proof. split; reflexivity. Qed.

(** For the identifier [__proto__] the preload stores nothing: the cache
    is as before and the index path read is its prototype. *)
Example prototype_key_is_not_stored :
  preloadThirdPartyIndexPathFromDisk (G := scripted) BASE JSON_parse
    manager "__proto__" proto_not_installed_script
  = (Ok manager, [])
  /\ urlForComponent Features BASE objectToCss super_urlForComponent
       Object_prototype Array_prototype manager proto_plugin
     = Ok "http://localhost:8080/__proto__/[object Object]".
Proof. split; reflexivity. Qed.

(** With an object as entry point, the preload for [__proto__] replaces
    the prototype of the cache: what the cache gives for another
    identifier changes, though it has no own entry. *)
Example prototype_key_replaces_the_prototype :
  match preloadThirdPartyIndexPathFromDisk (G := scripted) BASE
          object_main_parse manager "__proto__" proto_installed_script with
  | (Ok this, _) =>
      PlainObject.own (thirdPartyIndexPaths this) = ∅
      /\ cachedIndexPath Object_prototype Array_prototype manager plugin_id
         = None
      /\ cachedIndexPath Object_prototype Array_prototype this plugin_id
         = Some (JS.JString "other.html")
  | (Threw _, _) => False
  end.
Proof. repeat split. Qed.

Lemma getIndexFile_touches_one_cache_entry_witness :
  (forall other,
      other <> plugin_id ->
      cachedIndexPath Object_prototype Array_prototype preloaded_manager
        other
      = cachedIndexPath Object_prototype Array_prototype manager other)
  /\ JS.truthy
       (getIndexFileRelativePath Features Object_prototype Array_prototype
          preloaded_manager plugin_id) = true.
Proof.
  destruct (getIndexFile_touches_one_cache_entry scripted Features BASE
              JSON_parse Object_prototype Array_prototype manager
              preloaded_manager plugin_id (Some "<html></html>")
              index_lookup_script [] eq_refl) as (_ & Hkept & _).
  destruct (Hkept ltac:(discriminate)) as (_ & Hframe & Htruthy).
  split; [exact Hframe | exact (Htruthy eq_refl)].
Defined.


(** Running the action times out: it stays marked as running. *)
Lemma executeAction_marks_the_action_witness :
  ListedActions.executeAction (Sh := ListedActions.logging
                                       (replying (Threw "timeout")))
    true publish listed idle (tt, [])
  = (Threw "timeout",
     (tt, [ListedActions.EvChangeItem "b6a5"
             [Some (ListedActions.flagged publish ListedActions.started);
              None] (Ok tt);
           ListedActions.EvRunAction publish (Threw "timeout")]))
  /\ ListedActions.updates
       [ListedActions.EvChangeItem "b6a5"
          [Some (ListedActions.flagged publish ListedActions.started); None]
          (Ok tt);
        ListedActions.EvRunAction publish (Threw "timeout")]
     = [("b6a5",
         [Some (ListedActions.flagged publish ListedActions.started);
          None])].
Proof.
  split; [reflexivity|].
  exact (proj2 (proj2 (proj2 (executeAction_marks_the_action
                                (replying (Threw "timeout")) publish listed
                                idle tt tt (Threw "timeout") _ eq_refl))
                  "timeout" ltac:(simpl; auto))).
Defined.


(** The port is taken: the manager stays without a server. *)
Lemma failed_server_start_is_swallowed_witness :
  Server.initialize (Sv := noting (Threw "EADDRINUSE")) BASE fresh_manager
    []
  = (Ok fresh_manager,
     ["start"; Server.start_failure_message; "EADDRINUSE"])
  /\ Server.deinit (Sv := noting (Threw "EADDRINUSE")) fresh_manager []
     = (Threw "TypeError", ["super.deinit"]).
Proof.
  destruct (failed_server_start_is_swallowed (noting (Threw "EADDRINUSE"))
              BASE fresh_manager "EADDRINUSE" (Ok tt) [] ["start"]
              ["start"; Server.start_failure_message]
              ["start"; Server.start_failure_message; "EADDRINUSE"]
              eq_refl eq_refl eq_refl) as [Hinit Hdeinit].
  split; [exact Hinit|].
  exact (Hdeinit eq_refl [] ["super.deinit"] eq_refl).
Defined.

(** The editor's archive hashes to [BBB=], the registry expects [AAA=]. *)
Lemma checksum_mismatch_keeps_install_directory_witness :
  exists root',
    downloadComponentOffline (G := online_disk) Features FeatureChecksums
      BASE editor fresh_storage = (Ok (Some ChecksumMismatch), root')
    /\ FS.lookup (FS.parse (pathForComponent BASE editor_id)) root'
       = FS.lookup (FS.parse (pathForComponent BASE editor_id))
           fresh_storage.
Proof.
  exact (checksum_mismatch_keeps_install_directory serving digest_BBB
           (fun bytes => bytes) unpack Features FeatureChecksums BASE
           editor editor_feature editor_url "PK-editor" 200%Z fresh_storage
           [("components", FS.Dir [])]
           eq_refl eq_refl eq_refl ltac:(discriminate) eq_refl ltac:(lia)
           eq_refl ltac:(right; vm_compute; discriminate)).
Defined.

(** The plugin's archive wraps its files in [markdown-1.3.0]. *)
Lemma download_unwraps_wrapped_archive_witness :
  exists root',
    downloadComponentOffline (G := online_disk) Features FeatureChecksums
      BASE plugin fresh_storage = (Ok None, root')
    /\ FS.lookup (FS.parse (pathForComponent BASE plugin_id)) root'
       = Some (FS.Dir [("index.html", html);
                       ("package.json", FS.File manifest_1_3_0)])
    /\ FS.lookup (FS.parse (tmpLocationOf BASE plugin_id)) root' = None.
Proof.
  exact (download_unwraps_wrapped_archive serving digest_BBB
           (fun bytes => bytes) unpack Features FeatureChecksums BASE
           plugin plugin_url "PK-plugin" "markdown-1.3.0" 200%Z
           [("index.html", html); ("package.json", FS.File manifest_1_3_0)]
           [] fresh_storage
           eq_refl eq_refl eq_refl eq_refl ltac:(discriminate) eq_refl
           ltac:(lia) eq_refl eq_refl eq_refl eq_refl).
Defined.

(** The normalization needs its temporary move path: when something is
    there already, the first move is refused and the install directory
    stays wrapped. *)
Example occupied_move_path_blocks_normalization :
  FS.lookup (FS.parse (tmpMovePathOf BASE plugin_id)) occupied_storage
  = Some (FS.File "left over")
  /\ normalizeLayout (G := disk) BASE plugin_id occupied_storage
     = (Threw "EEXIST", occupied_storage).
Proof. split; reflexivity. Qed.

(** For an identifier with a slash the temporary move path lies in a
    directory that does not exist: the first move fails. *)
Example nested_identifier_blocks_normalization :
  FS.is_name nested_id = false
  /\ FS.lookup (FS.parse (pathForComponent BASE nested_id)) nested_storage
     = Some (FS.Dir [("editor-1.0.0", FS.Dir [("index.html", html)])])
  /\ FS.lookup (FS.parse (tmpMovePathOf BASE nested_id)) nested_storage
     = None
  /\ normalizeLayout (G := disk) BASE nested_id nested_storage
     = (Threw "ENOENT", nested_storage).
Proof. repeat split. Qed.

End Scenarios.
